(** * statefolio: the state-transition contract of the counter/todo stores

    The repository renders one counter/todo screen per state-management
    library.  This development embeds the stores of

      - [src/app/context.tsx]          (module [Context]: reducer + dispatch),
      - [src/app/zustand.tsx]          (module [Zustand]: [create]/[set]),
      - [src/app/mobx.tsx]             (module [Mobx]: observable class),
      - [src/store/context/store.ts]   (module [ContextStore]: the reducer of
                                        the Context API guide, which keys
                                        removal on the positional index),
      - [src/components/BaseScreen.tsx] (module [BaseScreen]: the add handler),

    and proves the properties of the specification about them.  It then
    covers the rest of the stores and their callers: the recoil atoms and
    the redux slices of the app ([Recoil], [Redux]), the context screen as
    the user drives it ([ContextScreen]), the hooks and the screen of the
    Context API guide ([ContextActions], [GuideScreen]), the splicing slice
    of the Redux Toolkit guide ([ReduxGuide]) and the data set of the memory
    test ([MemoryTest]). *)

From Stdlib Require Import ZArith NArith Bool Lia Ascii String List.
From Stdlib Require Import DecimalString DecimalZ DecimalPos.
Import ListNotations.

Set Implicit Arguments.
Local Open Scope Z_scope.

(* ================================================================= *)
(** ** JavaScript values used by the stores *)

Module Js.

(** A JavaScript string is a sequence of UTF-16 code units. *)
Definition code_unit := N.
Definition jsstring := list code_unit.

(** ASCII literal, for writing concrete strings. *)
Definition lit (s : string) : jsstring :=
  map N_of_ascii (list_ascii_of_string s).

(** [a === b] on strings: same code units, position by position. *)
Fixpoint str_eqb (a b : jsstring) : bool :=
  match a, b with
  | [], [] => true
  | x :: a', y :: b' => N.eqb x y && str_eqb a' b'
  | _, _ => false
  end.

(** [a !== b]. *)
Definition str_neqb (a b : jsstring) : bool := negb (str_eqb a b).

(** ToBoolean on a string: only the empty string is falsy. *)
Definition truthy (s : jsstring) : bool :=
  match s with
  | [] => false
  | _ :: _ => true
  end.

(** WhiteSpace and LineTerminator code points of ECMAScript, the characters
    that [String.prototype.trim] strips. *)
Definition isWhiteSpace (c : code_unit) : bool :=
  ((9 <=? c) && (c <=? 13)           (* TAB, LF, VT, FF, CR *)
   || (c =? 32)                      (* SPACE *)
   || (c =? 160)                     (* NO-BREAK SPACE *)
   || (c =? 5760)                    (* U+1680 *)
   || ((8192 <=? c) && (c <=? 8202)) (* U+2000 .. U+200A *)
   || (c =? 8232) || (c =? 8233)     (* U+2028, U+2029 *)
   || (c =? 8239)                    (* U+202F *)
   || (c =? 8287)                    (* U+205F *)
   || (c =? 12288)                   (* U+3000 *)
   || (c =? 65279))%N.               (* U+FEFF *)

Fixpoint dropWhile (p : code_unit -> bool) (s : jsstring) : jsstring :=
  match s with
  | [] => []
  | c :: s' => if p c then dropWhile p s' else s
  end.

Definition trimStart (s : jsstring) : jsstring := dropWhile isWhiteSpace s.
Definition trimEnd (s : jsstring) : jsstring :=
  rev (dropWhile isWhiteSpace (rev s)).

(** [s.trim()]. *)
Definition trim (s : jsstring) : jsstring := trimEnd (trimStart s).

(** [n.toString()] for an integer-valued number below 1e21 in magnitude
    (every value of [Date.now()] is): the decimal digits, most significant
    first, no leading zero, ["-"] in front of a negative number. *)
Definition toString (n : Z) : jsstring :=
  lit (NilZero.string_of_int (Z.to_int n)).

(** Numbers.  A JavaScript number is an IEEE 754 double.  The counters hold
    integers; an integer-valued double is rendered by its value in [Z].
    [round_to_double z] is the double nearest to the integer [z], ties going
    to the even significand (53 bits): every integer up to 2^53 in magnitude
    is a double, above that only the multiples of the unit in the last
    place are.  (Magnitudes of 2^1024 and more, which overflow to
    [Infinity], cannot be reached by adding or subtracting 1.) *)
Definition exact_limit : Z := 2 ^ 53.

Definition round_to_double (z : Z) : Z :=
  let e := Z.log2 (Z.abs z) - 52 in
  if e <=? 0 then z
  else
    let ulp := 2 ^ e in
    let q := z / ulp in
    let r := z mod ulp in
    if 2 * r <? ulp then q * ulp
    else if ulp <? 2 * r then (q + 1) * ulp
    else if Z.even q then q * ulp
    else (q + 1) * ulp.

(** [x + y] and [x - y] on integer-valued numbers: the exact result,
    rounded. *)
Definition number_add (x y : Z) : Z := round_to_double (x + y).
Definition number_sub (x y : Z) : Z := round_to_double (x - y).

Arguments number_add : simpl never.
Arguments number_sub : simpl never.

(** [arr.filter(x => p(x))]. *)
Definition filter {A} (p : A -> bool) (arr : list A) : list A :=
  List.filter p arr.

(** [arr.filter((x, index) => p(x, index))]: the callback also receives the
    position of the element in [arr]. *)
Fixpoint filter_from {A} (p : A -> nat -> bool) (index : nat) (arr : list A)
  : list A :=
  match arr with
  | [] => []
  | x :: arr' =>
      if p x index then x :: filter_from p (S index) arr'
      else filter_from p (S index) arr'
  end.

Definition filter_indexed {A} (p : A -> nat -> bool) (arr : list A) : list A :=
  filter_from p 0 arr.

End Js.

Import Js.

(* ================================================================= *)
(** ** The shared [Todo] shape

    [interface Todo { id: string; text: string }], declared identically in
    context.tsx, zustand.tsx, mobx.tsx and BaseScreen.tsx. *)

Record Todo : Type := mkTodo { id : jsstring; text : jsstring }.

(** The spec's [freshId()]: the expression [Date.now().toString()] that every
    id-keyed [addTodo] evaluates, where [now] is the value [Date.now()]
    returns at that call. *)
Definition freshId (now : Z) : jsstring := toString now.

(** The callback [(todo) => todo.id !== id] of every id-keyed [removeTodo]. *)
Definition keeps (id0 : jsstring) (todo : Todo) : bool :=
  str_neqb todo.(id) id0.

(** The calls a screen can make on a store object ([increment], [decrement],
    [addTodo(text)], [removeTodo(id)]), used to describe runs of the stores
    that expose methods rather than a reducer. *)
Inductive Call : Type :=
| CallIncrement
| CallDecrement
| CallAddTodo (text : jsstring)
| CallRemoveTodo (id : jsstring).

(** How many calls of a run are [increment()], resp. [decrement()]; each call
    comes with the clock reading at the time it is made. *)
Definition increment_calls (calls : list (Z * Call)) : nat :=
  length (List.filter (fun e => match snd e with
                                | CallIncrement => true
                                | _ => false
                                end) calls).

Definition decrement_calls (calls : list (Z * Call)) : nat :=
  length (List.filter (fun e => match snd e with
                                | CallDecrement => true
                                | _ => false
                                end) calls).

(** A run made of [addTodo] calls only: [(now, text)] for each call. *)
Definition add_calls (adds : list (Z * jsstring)) : list (Z * Call) :=
  map (fun a => (fst a, CallAddTodo (snd a))) adds.

(* ================================================================= *)
(** ** src/app/context.tsx *)

Module Context.

(** [count] is a JavaScript number that starts at 0 and moves by steps of
    one, so it holds an integer-valued double, rendered by its value in
    [Z]; its additions and subtractions are those of the doubles
    ([number_add], [number_sub]). *)
Record State : Type := mkState { count : Z; todos : list Todo }.

Inductive Action : Type :=
| INCREMENT
| DECREMENT
| ADD_TODO (text : jsstring)
| REMOVE_TODO (id : jsstring).

(** [reducer(state, action)]; [now] is what [Date.now()] returns while the
    action is reduced.  The [default] branch is unreachable for a
    well-typed [Action]. *)
Definition reducer (now : Z) (state : State) (action : Action) : State :=
  match action with
  | INCREMENT =>
      {| count := number_add state.(count) 1; todos := state.(todos) |}
  | DECREMENT =>
      {| count := number_sub state.(count) 1; todos := state.(todos) |}
  | ADD_TODO text =>
      {| count := state.(count);
         todos := state.(todos) ++ [ {| id := toString now; text := text |} ] |}
  | REMOVE_TODO id0 =>
      {| count := state.(count);
         todos := Js.filter (fun todo => str_neqb todo.(id) id0)
                            state.(todos) |}
  end.

(** The initial state handed to [useReducer]. *)
Definition initialState : State := {| count := 0; todos := [] |}.

(** A run of the screen: the actions dispatched, in order, each with the
    clock reading at its dispatch. *)
Definition dispatch_all (events : list (Z * Action)) (state : State) : State :=
  fold_left (fun s e => reducer (fst e) s (snd e)) events state.

(** How many dispatched actions are [INCREMENT], resp. [DECREMENT]. *)
Definition increments (events : list (Z * Action)) : nat :=
  length (List.filter (fun e => match snd e with
                                | INCREMENT => true
                                | _ => false
                                end) events).

Definition decrements (events : list (Z * Action)) : nat :=
  length (List.filter (fun e => match snd e with
                                | DECREMENT => true
                                | _ => false
                                end) events).

(** A run made of [ADD_TODO] actions only: [(now, text)] for each. *)
Definition add_events (adds : list (Z * jsstring)) : list (Z * Action) :=
  map (fun a => (fst a, ADD_TODO (snd a))) adds.

End Context.

(* ================================================================= *)
(** ** src/app/zustand.tsx *)

Module Zustand.

(** The data fields of [StoreState] (its other fields are the four
    functions below). *)
Record StoreState : Type := mkStoreState { count : Z; todos : list Todo }.

(** The object an updater returns: the fields to overwrite. *)
Record Partial : Type :=
  mkPartial { set_count : option Z; set_todos : option (list Todo) }.

(** zustand's [set(updater)]: the fields named by [updater(state)] replace
    those of [state], the others are kept. *)
Definition set (updater : StoreState -> Partial) (state : StoreState)
  : StoreState :=
  let partial := updater state in
  {| count := match partial.(set_count) with
              | Some c => c
              | None => state.(count)
              end;
     todos := match partial.(set_todos) with
              | Some l => l
              | None => state.(todos)
              end |}.

Definition increment : StoreState -> StoreState :=
  set (fun state =>
         {| set_count := Some (number_add state.(count) 1);
            set_todos := None |}).

Definition decrement : StoreState -> StoreState :=
  set (fun state =>
         {| set_count := Some (number_sub state.(count) 1);
            set_todos := None |}).

Definition addTodo (now : Z) (text : jsstring) : StoreState -> StoreState :=
  set (fun state =>
         {| set_count := None;
            set_todos :=
              Some (state.(todos) ++ [ {| id := toString now; text := text |} ])
         |}).

Definition removeTodo (id0 : jsstring) : StoreState -> StoreState :=
  set (fun state =>
         {| set_count := None;
            set_todos :=
              Some (Js.filter (fun todo => str_neqb todo.(id) id0)
                              state.(todos)) |}).

(** The store as [create] builds it. *)
Definition initialState : StoreState := {| count := 0; todos := [] |}.

Definition call (now : Z) (c : Call) : StoreState -> StoreState :=
  match c with
  | CallIncrement => increment
  | CallDecrement => decrement
  | CallAddTodo text => addTodo now text
  | CallRemoveTodo id0 => removeTodo id0
  end.

Definition call_all (calls : list (Z * Call)) (state : StoreState)
  : StoreState :=
  fold_left (fun s e => call (fst e) (snd e) s) calls state.

End Zustand.

(* ================================================================= *)
(** ** src/app/mobx.tsx *)

Module Mobx.

(** The fields of [class Store]; the methods update [this] in place, which
    is rendered here as the store before and after the call. *)
Record Store : Type := mkStore { count : Z; todos : list Todo }.

(** [arr.push(x)]. *)
Definition push {A} (arr : list A) (x : A) : list A := arr ++ [x].

Definition increment (this : Store) : Store :=
  {| count := number_add this.(count) 1; todos := this.(todos) |}.

Definition decrement (this : Store) : Store :=
  {| count := number_sub this.(count) 1; todos := this.(todos) |}.

Definition addTodo (now : Z) (text : jsstring) (this : Store) : Store :=
  {| count := this.(count);
     todos := push this.(todos) {| id := toString now; text := text |} |}.

Definition removeTodo (id0 : jsstring) (this : Store) : Store :=
  {| count := this.(count);
     todos := Js.filter (fun todo => str_neqb todo.(id) id0) this.(todos) |}.

(** [new Store()]. *)
Definition store : Store := {| count := 0; todos := [] |}.

Definition call (now : Z) (c : Call) : Store -> Store :=
  match c with
  | CallIncrement => increment
  | CallDecrement => decrement
  | CallAddTodo text => addTodo now text
  | CallRemoveTodo id0 => removeTodo id0
  end.

Definition call_all (calls : list (Z * Call)) (this : Store) : Store :=
  fold_left (fun s e => call (fst e) (snd e) s) calls this.

End Mobx.

(* ================================================================= *)
(** ** src/store/context/store.ts (Context API guide)

    The reducer whose todos are plain strings and whose [REMOVE_TODO] carries
    a position in the list. *)

Module ContextStore.

Record Counter : Type := mkCounter { value : Z }.
Record Todos : Type := mkTodos { items : list jsstring }.
Record State : Type := mkState { counter : Counter; todos : Todos }.

(** [REMOVE_TODO]'s payload is a [number]; it is compared with list
    positions, so only its integer values can match and it is taken in
    [Z]. *)
Inductive Action : Type :=
| INCREMENT
| DECREMENT
| ADD_TODO (payload : jsstring)
| REMOVE_TODO (payload : Z).

Definition initialState : State :=
  {| counter := {| value := 0 |}; todos := {| items := [] |} |}.

Definition reducer (state : State) (action : Action) : State :=
  match action with
  | INCREMENT =>
      {| counter := {| value := number_add state.(counter).(value) 1 |};
         todos := state.(todos) |}
  | DECREMENT =>
      {| counter := {| value := number_sub state.(counter).(value) 1 |};
         todos := state.(todos) |}
  | ADD_TODO payload =>
      {| counter := state.(counter);
         todos := {| items := state.(todos).(items) ++ [payload] |} |}
  | REMOVE_TODO payload =>
      {| counter := state.(counter);
         todos :=
           {| items :=
                Js.filter_indexed
                  (fun _ index => negb (Z.of_nat index =? payload))
                  state.(todos).(items) |} |}
  end.

End ContextStore.

(* ================================================================= *)
(** ** src/components/BaseScreen.tsx *)

Module BaseScreen.

(** What the press handler of the add button does: calls of the
    [onAddTodo] prop and of the [setNewTodo] state setter, in order. *)
Inductive Effect : Type :=
| onAddTodo (text : jsstring)
| setNewTodo (value : jsstring).

(** [onPress] of the add button, [newTodo] being the content of the text
    input. *)
Definition onPress (newTodo : jsstring) : list Effect :=
  if truthy (trim newTodo)
  then [ onAddTodo newTodo; setNewTodo (lit "") ]
  else [].

(** The texts that reach the store through [onAddTodo]. *)
Definition passed_to_store (effects : list Effect) : list jsstring :=
  flat_map (fun e => match e with
                     | onAddTodo text => [text]
                     | setNewTodo _ => []
                     end) effects.

End BaseScreen.

(* ================================================================= *)
(** ** Vocabulary of the properties *)

(** The ids of a todo list, in list order. *)
Definition ids (l : list Todo) : list jsstring := map id l.

(** Number of entries of [l] whose id is [id0]. *)
Definition occurrences (id0 : jsstring) (l : list Todo) : nat :=
  length (List.filter (fun todo => str_eqb todo.(id) id0) l).

(** [subseq l1 l2]: [l1] is [l2] with some entries deleted, the others kept
    in their order. *)
Inductive subseq {A : Type} : list A -> list A -> Prop :=
| subseq_nil : subseq [] []
| subseq_skip x l1 l2 : subseq l1 l2 -> subseq l1 (x :: l2)
| subseq_keep x l1 l2 : subseq l1 l2 -> subseq (x :: l1) (x :: l2).

(** Two todos added within one millisecond, the clock reading
    1700000000000 both times: the state of the context screen after
    [ADD_TODO "buy milk"] and [ADD_TODO "walk dog"]. *)
Definition same_ms : Z := 1700000000000.

Definition one_todo : Context.State :=
  Context.dispatch_all
    [ (same_ms, Context.ADD_TODO (lit "buy milk")) ] Context.initialState.

Definition two_todos_same_ms : Context.State :=
  Context.dispatch_all
    [ (same_ms, Context.ADD_TODO (lit "buy milk"));
      (same_ms, Context.ADD_TODO (lit "walk dog")) ] Context.initialState.

(** The list without its element at position [i]. *)
Definition without_position {A} (i : nat) (l : list A) : list A :=
  firstn i l ++ skipn (S i) l.

(* ================================================================= *)
(** ** [Array.prototype.splice] *)

Module JsArray.

(** [arr.splice(start, deleteCount)] for integer arguments: the array after
    the call (the removed items, which the call returns, are dropped by the
    caller).  A negative [start] counts from the end of the array, and both
    the start and the number of items to delete are clamped to the array. *)
Definition splice {A} (start deleteCount : Z) (arr : list A) : list A :=
  let len := Z.of_nat (length arr) in
  let actualStart :=
    if start <? 0 then Z.max (len + start) 0 else Z.min start len in
  let actualDeleteCount := Z.min (Z.max deleteCount 0) (len - actualStart) in
  firstn (Z.to_nat actualStart) arr
  ++ skipn (Z.to_nat (actualStart + actualDeleteCount)) arr.

End JsArray.

(* ================================================================= *)
(** ** src/app/recoil.tsx *)

Module Recoil.

(** The values of the two atoms in the [RecoilRoot] of the screen. *)
Record Atoms : Type := mkAtoms { counterState : Z; todosState : list Todo }.

(** The [default]s of the atoms. *)
Definition defaults : Atoms := {| counterState := 0; todosState := [] |}.

(** The setters returned by [useRecoilState(counterState)] and
    [useSetRecoilState(todosState)], called with an updater function. *)
Definition setCount (updater : Z -> Z) (root : Atoms) : Atoms :=
  {| counterState := updater root.(counterState);
     todosState := root.(todosState) |}.

Definition setTodos (updater : list Todo -> list Todo) (root : Atoms) : Atoms :=
  {| counterState := root.(counterState);
     todosState := updater root.(todosState) |}.

Definition addTodo (now : Z) (text : jsstring) : Atoms -> Atoms :=
  setTodos (fun prev => prev ++ [ {| id := toString now; text := text |} ]).

Definition removeTodo (id0 : jsstring) : Atoms -> Atoms :=
  setTodos (fun prev => Js.filter (fun todo => str_neqb todo.(id) id0) prev).

(** The press handlers of the two counter buttons. *)
Definition increment : Atoms -> Atoms := setCount (fun c => number_add c 1).
Definition decrement : Atoms -> Atoms := setCount (fun c => number_sub c 1).

Definition call (now : Z) (c : Call) : Atoms -> Atoms :=
  match c with
  | CallIncrement => increment
  | CallDecrement => decrement
  | CallAddTodo text => addTodo now text
  | CallRemoveTodo id0 => removeTodo id0
  end.

Definition call_all (calls : list (Z * Call)) (root : Atoms) : Atoms :=
  fold_left (fun s e => call (fst e) (snd e) s) calls root.

End Recoil.

(* ================================================================= *)
(** ** src/app/redux.tsx *)

Module Redux.

Record CounterState : Type := mkCounterState { value : Z }.
Record TodosState : Type := mkTodosState { items : list Todo }.
Record RootState : Type :=
  mkRootState { counter : CounterState; todos : TodosState }.

(** The actions built by the action creators of the two slices
    ([counter/increment], [counter/decrement], [todos/addTodo],
    [todos/removeTodo]). *)
Inductive Action : Type :=
| increment
| decrement
| addTodo (payload : jsstring)
| removeTodo (payload : jsstring).

(** [counterSlice.reducer]: a slice reducer returns its state as it is on
    the actions of another slice. *)
Definition counterSlice_reducer (state : CounterState) (action : Action)
  : CounterState :=
  match action with
  | increment => {| value := number_add state.(value) 1 |}
  | decrement => {| value := number_sub state.(value) 1 |}
  | _ => state
  end.

(** [todosSlice.reducer]; [now] is the reading of [Date.now()]. *)
Definition todosSlice_reducer (now : Z) (state : TodosState) (action : Action)
  : TodosState :=
  match action with
  | addTodo payload =>
      {| items := Mobx.push state.(items)
                    {| id := toString now; text := payload |} |}
  | removeTodo payload =>
      {| items := Js.filter (fun todo => str_neqb todo.(id) payload)
                            state.(items) |}
  | _ => state
  end.

(** The root reducer that [configureStore] builds from
    [{ counter, todos }]: every action goes through both slice reducers. *)
Definition reducer (now : Z) (state : RootState) (action : Action) : RootState :=
  {| counter := counterSlice_reducer state.(counter) action;
     todos := todosSlice_reducer now state.(todos) action |}.

Definition initialState : RootState :=
  {| counter := {| value := 0 |}; todos := {| items := [] |} |}.

(** What the screen dispatches for each call of its handlers. *)
Definition action_of (c : Call) : Action :=
  match c with
  | CallIncrement => increment
  | CallDecrement => decrement
  | CallAddTodo text => addTodo text
  | CallRemoveTodo id0 => removeTodo id0
  end.

Definition dispatch_all (calls : list (Z * Call)) (state : RootState)
  : RootState :=
  fold_left (fun s e => reducer (fst e) s (action_of (snd e))) calls state.

End Redux.

(* ================================================================= *)
(** ** docs/redux-toolkit.md: src/store/redux/slices/todoSlice.ts *)

Module ReduxGuide.

Record TodoState : Type := mkTodoState { todos : list jsstring }.

(** [removeTodo]'s payload is a [number], taken in [Z] as in
    [ContextStore]. *)
Inductive Action : Type :=
| addTodo (payload : jsstring)
| removeTodo (payload : Z).

Definition initialState : TodoState := {| todos := [] |}.

(** [todoSlice.reducer]: [state.todos.push(payload)] and
    [state.todos.splice(payload, 1)]. *)
Definition reducer (state : TodoState) (action : Action) : TodoState :=
  match action with
  | addTodo payload => {| todos := Mobx.push state.(todos) payload |}
  | removeTodo payload =>
      {| todos := JsArray.splice payload 1 state.(todos) |}
  end.

End ReduxGuide.

(* ================================================================= *)
(** ** src/store/context/actions.ts, over the reducer of store.ts *)

Module ContextActions.

(** The functions returned by [useCounterActions] and [useTodoActions]. *)
Inductive Call : Type :=
| increment
| decrement
| addTodo (todo : jsstring)
| removeTodo (index : Z).

(** The action each of them dispatches. *)
Definition action_of (c : Call) : ContextStore.Action :=
  match c with
  | increment => ContextStore.INCREMENT
  | decrement => ContextStore.DECREMENT
  | addTodo todo => ContextStore.ADD_TODO todo
  | removeTodo index => ContextStore.REMOVE_TODO index
  end.

Definition call (c : Call) (state : ContextStore.State) : ContextStore.State :=
  ContextStore.reducer state (action_of c).

Definition call_all (calls : list Call) (state : ContextStore.State)
  : ContextStore.State :=
  fold_left (fun s c => call c s) calls state.

End ContextActions.

(* ================================================================= *)
(** ** src/screens/ContextScreen.tsx of the Context API guide *)

Module GuideScreen.

(** The store of the provider and the [newTodo] state of the screen. *)
Record Screen : Type :=
  mkScreen { store : ContextStore.State; newTodo : jsstring }.

Definition mounted : Screen :=
  {| store := ContextStore.initialState; newTodo := lit "" |}.

(** What the user can do: the two counter buttons, typing in the input,
    the Add button, and the Remove button of the row at [index]. *)
Inductive Event : Type :=
| PressIncrement
| PressDecrement
| ChangeText (value : jsstring)
| PressAdd
| PressRemove (index : nat).

(** [handleAddTodo]. *)
Definition handleAddTodo (scr : Screen) : Screen :=
  if truthy (trim scr.(newTodo))
  then {| store := ContextActions.call
                     (ContextActions.addTodo (trim scr.(newTodo))) scr.(store);
          newTodo := lit "" |}
  else scr.

Definition handle (scr : Screen) (ev : Event) : Screen :=
  match ev with
  | PressIncrement =>
      {| store := ContextActions.call ContextActions.increment scr.(store);
         newTodo := scr.(newTodo) |}
  | PressDecrement =>
      {| store := ContextActions.call ContextActions.decrement scr.(store);
         newTodo := scr.(newTodo) |}
  | ChangeText value => {| store := scr.(store); newTodo := value |}
  | PressAdd => handleAddTodo scr
  | PressRemove index =>
      {| store := ContextActions.call
                    (ContextActions.removeTodo (Z.of_nat index)) scr.(store);
         newTodo := scr.(newTodo) |}
  end.

Definition handle_all (events : list Event) (scr : Screen) : Screen :=
  fold_left handle events scr.

End GuideScreen.

(* ================================================================= *)
(** ** src/app/context.tsx: [ContextScreen] with [BaseScreen] inside *)

Module ContextScreen.

(** The state of [useReducer] in [ContextWrapper] and the [newTodo] state of
    [BaseScreen]. *)
Record Screen : Type := mkScreen { state : Context.State; newTodo : jsstring }.

Definition mounted : Screen :=
  {| state := Context.initialState; newTodo := lit "" |}.

(** What the user can do: the two counter buttons, typing in the input, the
    add button, and the trash button of the row at position [row] of the
    list. *)
Inductive Event : Type :=
| PressDecrement
| PressIncrement
| ChangeText (value : jsstring)
| PressAdd
| PressRemove (row : nat).

Definition dispatch (now : Z) (action : Context.Action) (scr : Screen) : Screen :=
  {| state := Context.reducer now scr.(state) action;
     newTodo := scr.(newTodo) |}.

(** The props given to [BaseScreen], and its state setter, applied to the
    effects of a handler. *)
Definition perform (now : Z) (scr : Screen) (e : BaseScreen.Effect) : Screen :=
  match e with
  | BaseScreen.onAddTodo text => dispatch now (Context.ADD_TODO text) scr
  | BaseScreen.setNewTodo value => {| state := scr.(state); newTodo := value |}
  end.

(** One user event, [now] being the clock reading when it is handled.  The
    list shows one row per todo, so there is a trash button at [row] only
    when the list has an item there; it calls [onRemoveTodo(item.id)]. *)
Definition handle (now : Z) (scr : Screen) (ev : Event) : Screen :=
  match ev with
  | PressDecrement => dispatch now Context.DECREMENT scr
  | PressIncrement => dispatch now Context.INCREMENT scr
  | ChangeText value => {| state := scr.(state); newTodo := value |}
  | PressAdd => fold_left (perform now) (BaseScreen.onPress scr.(newTodo)) scr
  | PressRemove row =>
      match nth_error scr.(state).(Context.todos) row with
      | Some item => dispatch now (Context.REMOVE_TODO item.(id)) scr
      | None => scr
      end
  end.

Definition handle_all (events : list (Z * Event)) (scr : Screen) : Screen :=
  fold_left (fun s e => handle (fst e) s (snd e)) events scr.

End ContextScreen.

(* ================================================================= *)
(** ** The memory-usage test: [generateLargeDataset] *)

Module MemoryTest.

Record Metadata : Type :=
  mkMetadata { createdBy : jsstring; category : jsstring }.

Record Item : Type :=
  mkItem { id : Z;
           text : jsstring;
           completed : bool;
           tags : list jsstring;
           timestamp : Z;
           metadata : Metadata }.

(** The item built for index [i]; [now] is the reading of [Date.now()] when
    it is built.  [%] is the remainder of the division. *)
Definition item (now : Z) (i : Z) : Item :=
  {| id := i;
     text := lit "Item " ++ toString i;
     completed := false;
     tags := [ lit "tag" ++ toString (Z.rem i 5);
               lit "priority" ++ toString (Z.rem i 3) ];
     timestamp := now;
     metadata := {| createdBy := lit "user" ++ toString (Z.rem i 10);
                    category := lit "category" ++ toString (Z.rem i 8) |} |}.

(** What a call yields: the array it returns, or the [RangeError] it
    throws. *)
Inductive Outcome : Type :=
| Returned (data : list Item)
| RangeError.

(** [generateLargeDataset(size)] for an integer [size]:
    [Array.from({ length: size }, (_, i) => ...)] creates an array of that
    length, which throws [RangeError] when the length exceeds 2^32 - 1, and
    then calls the function for [i = 0, ..., size - 1] (for no index at all
    when [size] is negative); [clock i] is the reading of [Date.now()] during
    the call for index [i]. *)
Definition generateLargeDataset (clock : nat -> Z) (size : Z) : Outcome :=
  if 2 ^ 32 <=? size then RangeError
  else Returned (map (fun i => item (clock i) (Z.of_nat i))
                     (seq 0 (Z.to_nat size))).

End MemoryTest.

(* ================================================================= *)
(** ** Vocabulary for runs and texts *)

(** The input holds nothing but white space (or nothing at all). *)
Definition blank (s : jsstring) : bool := forallb isWhiteSpace s.

(** The string does not begin with white space. *)
Definition starts_clean (s : jsstring) : bool :=
  match s with
  | [] => true
  | c :: _ => negb (isWhiteSpace c)
  end.

(** No white space at either end. *)
Definition trimmed (s : jsstring) : bool :=
  starts_clean s && starts_clean (rev s).

(** The entries that the [ADD_TODO] actions of a run build, in order. *)
Definition added (events : list (Z * Context.Action)) : list Todo :=
  flat_map (fun e => match snd e with
                     | Context.ADD_TODO text =>
                         [ {| id := toString (fst e); text := text |} ]
                     | _ => []
                     end) events.

(** The clock readings at the [ADD_TODO] actions of a run. *)
Definition add_times (events : list (Z * Context.Action)) : list Z :=
  flat_map (fun e => match snd e with
                     | Context.ADD_TODO _ => [fst e]
                     | _ => []
                     end) events.

(** How many actions of a run are [ADD_TODO], resp. [REMOVE_TODO]. *)
Definition additions (events : list (Z * Context.Action)) : nat :=
  length (List.filter (fun e => match snd e with
                                | Context.ADD_TODO _ => true
                                | _ => false
                                end) events).

Definition removals (events : list (Z * Context.Action)) : nat :=
  length (List.filter (fun e => match snd e with
                                | Context.REMOVE_TODO _ => true
                                | _ => false
                                end) events).

(** Every [REMOVE_TODO] of the run names an id that is in the list when the
    action is reduced. *)
Fixpoint removals_matched (events : list (Z * Context.Action))
    (state : Context.State) : bool :=
  match events with
  | [] => true
  | e :: events' =>
      match snd e with
      | Context.REMOVE_TODO id0 =>
          existsb (fun todo => str_eqb todo.(id) id0) state.(Context.todos)
      | _ => true
      end
      && removals_matched events' (Context.reducer (fst e) state (snd e))
  end.

(** The action of the context reducer for a call of a store method. *)
Definition action_of_call (c : Call) : Context.Action :=
  match c with
  | CallIncrement => Context.INCREMENT
  | CallDecrement => Context.DECREMENT
  | CallAddTodo text => Context.ADD_TODO text
  | CallRemoveTodo id0 => Context.REMOVE_TODO id0
  end.

Definition actions_of_calls (calls : list (Z * Call))
  : list (Z * Context.Action) :=
  map (fun e => (fst e, action_of_call (snd e))) calls.

(** The five id-keyed stores hold the same count and the same list. *)
Definition same_view (c : Context.State) (z : Zustand.StoreState)
    (m : Mobx.Store) (r : Recoil.Atoms) (x : Redux.RootState) : Prop :=
  (Zustand.count z = Context.count c /\ Zustand.todos z = Context.todos c)
  /\ (Mobx.count m = Context.count c /\ Mobx.todos m = Context.todos c)
  /\ (Recoil.counterState r = Context.count c
      /\ Recoil.todosState r = Context.todos c)
  /\ (Redux.value (Redux.counter x) = Context.count c
      /\ Redux.items (Redux.todos x) = Context.todos c).

(* ================================================================= *)
(** ** Facts about the JavaScript primitives *)

Section JsFacts.

Lemma str_eqb_eq (a b : jsstring) : str_eqb a b = true <-> a = b.
Proof.
  revert b; induction a as [|x a IH]; intros [|y b]; simpl;
    try (split; [discriminate | discriminate]); try tauto.
  rewrite andb_true_iff, N.eqb_eq, IH.
  split; [intros [-> ->]; reflexivity | intros [= -> ->]; auto].
Qed.

Lemma str_neqb_true (a b : jsstring) : str_neqb a b = true <-> a <> b.
Proof.
  unfold str_neqb. rewrite negb_true_iff, <- not_true_iff_false, str_eqb_eq.
  tauto.
Qed.

Lemma str_neqb_false (a b : jsstring) : str_neqb a b = false <-> a = b.
Proof.
  unfold str_neqb. rewrite negb_false_iff. apply str_eqb_eq.
Qed.

Lemma N_of_ascii_inj (a b : ascii) : N_of_ascii a = N_of_ascii b -> a = b.
Proof.
  intros H. rewrite <- (ascii_N_embedding a), <- (ascii_N_embedding b).
  now rewrite H.
Qed.

Lemma lit_inj (s t : string) : lit s = lit t -> s = t.
Proof.
  revert t; induction s as [|a s IH]; intros [|b t]; simpl;
    try discriminate; try reflexivity.
  intros [= Hab Hst]. f_equal; [now apply N_of_ascii_inj | now apply IH].
Qed.

Lemma to_int_proper (n : Z) :
  Z.to_int n <> Decimal.Pos Decimal.Nil /\ Z.to_int n <> Decimal.Neg Decimal.Nil.
Proof.
  destruct n as [|p|p]; simpl; split; try discriminate;
    intros [= H]; now apply (Unsigned.to_uint_nonnil p).
Qed.

(** Two integers with the same decimal rendering are equal. *)
Lemma toString_inj (m n : Z) : toString m = toString n -> m = n.
Proof.
  unfold toString. intros H. apply lit_inj in H.
  assert (E : NilZero.int_of_string (NilZero.string_of_int (Z.to_int m))
              = NilZero.int_of_string (NilZero.string_of_int (Z.to_int n)))
    by now rewrite H.
  destruct (to_int_proper m) as [Hm1 Hm2], (to_int_proper n) as [Hn1 Hn2].
  rewrite !NilZero.isi in E by assumption.
  injection E as E.
  rewrite <- (DecimalZ.of_to m), <- (DecimalZ.of_to n). now rewrite E.
Qed.

End JsFacts.

(* ================================================================= *)
(** ** The arithmetic of the counters *)

Section Numbers.

Lemma round_to_double_exact z :
  Z.abs z <= exact_limit -> round_to_double z = z.
Proof.
  unfold exact_limit. intros H.
  destruct (Z.eq_dec (Z.abs z) (2 ^ 53)) as [E|E].
  - assert (Hz : z = 2 ^ 53 \/ z = - 2 ^ 53) by lia.
    destruct Hz as [-> | ->]; vm_compute; reflexivity.
  - assert (L : Z.log2 (Z.abs z) < 53).
    { destruct (Z.eq_dec z 0) as [-> | Hz]; [simpl; lia|].
      apply Z.log2_lt_pow2; lia. }
    unfold round_to_double. cbv zeta.
    destruct (Z.leb_spec (Z.log2 (Z.abs z) - 52) 0); [reflexivity | lia].
Qed.

Lemma number_add_exact x y :
  Z.abs (x + y) <= exact_limit -> number_add x y = x + y.
Proof. apply round_to_double_exact. Qed.

Lemma number_sub_exact x y :
  Z.abs (x - y) <= exact_limit -> number_sub x y = x - y.
Proof. apply round_to_double_exact. Qed.

(** One more than 2^53 is not a double: the sum rounds back to 2^53, and
    likewise at -2^53. *)
Lemma number_add_absorbed : number_add exact_limit 1 = exact_limit.
Proof. vm_compute. reflexivity. Qed.

Lemma number_sub_absorbed : number_sub (- exact_limit) 1 = - exact_limit.
Proof. vm_compute. reflexivity. Qed.

End Numbers.

(* ================================================================= *)
(** ** The counter *)

Section Counter.

Lemma context_count_run events : forall state,
  Z.abs (Context.count state) + Z.of_nat (length events) <= exact_limit ->
  Context.count (Context.dispatch_all events state)
  = Context.count state
    + Z.of_nat (Context.increments events)
    - Z.of_nat (Context.decrements events).
Proof.
  unfold Context.increments, Context.decrements.
  induction events as [|[now action] events IH]; intros state H.
  - simpl. lia.
  - change (length ((now, action) :: events)) with (S (length events)) in H.
    rewrite Nat2Z.inj_succ in H.
    change (Context.dispatch_all ((now, action) :: events) state)
      with (Context.dispatch_all events (Context.reducer now state action)).
    destruct action; simpl Context.reducer.
    + rewrite IH; simpl Context.count;
        rewrite number_add_exact by lia; [simpl; lia | lia].
    + rewrite IH; simpl Context.count;
        rewrite number_sub_exact by lia; [simpl; lia | lia].
    + rewrite IH; simpl; lia.
    + rewrite IH; simpl; lia.
Qed.

Lemma zustand_count_run calls : forall state,
  Z.abs (Zustand.count state) + Z.of_nat (length calls) <= exact_limit ->
  Zustand.count (Zustand.call_all calls state)
  = Zustand.count state
    + Z.of_nat (increment_calls calls) - Z.of_nat (decrement_calls calls).
Proof.
  unfold increment_calls, decrement_calls.
  induction calls as [|[now c] calls IH]; intros state H.
  - simpl. lia.
  - change (length ((now, c) :: calls)) with (S (length calls)) in H.
    rewrite Nat2Z.inj_succ in H.
    change (Zustand.call_all ((now, c) :: calls) state)
      with (Zustand.call_all calls (Zustand.call now c state)).
    destruct c; simpl Zustand.call.
    + rewrite IH; simpl Zustand.count;
        rewrite number_add_exact by lia; [simpl; lia | lia].
    + rewrite IH; simpl Zustand.count;
        rewrite number_sub_exact by lia; [simpl; lia | lia].
    + rewrite IH; simpl; lia.
    + rewrite IH; simpl; lia.
Qed.

Lemma mobx_count_run calls : forall this,
  Z.abs (Mobx.count this) + Z.of_nat (length calls) <= exact_limit ->
  Mobx.count (Mobx.call_all calls this)
  = Mobx.count this
    + Z.of_nat (increment_calls calls) - Z.of_nat (decrement_calls calls).
Proof.
  unfold increment_calls, decrement_calls.
  induction calls as [|[now c] calls IH]; intros this H.
  - simpl. lia.
  - change (length ((now, c) :: calls)) with (S (length calls)) in H.
    rewrite Nat2Z.inj_succ in H.
    change (Mobx.call_all ((now, c) :: calls) this)
      with (Mobx.call_all calls (Mobx.call now c this)).
    destruct c; simpl Mobx.call.
    + rewrite IH; simpl Mobx.count;
        rewrite number_add_exact by lia; [simpl; lia | lia].
    + rewrite IH; simpl Mobx.count;
        rewrite number_sub_exact by lia; [simpl; lia | lia].
    + rewrite IH; simpl; lia.
    + rewrite IH; simpl; lia.
Qed.

Lemma increments_repeat now n :
  Context.increments (repeat (now, Context.INCREMENT) n) = n
  /\ Context.decrements (repeat (now, Context.INCREMENT) n) = 0%nat.
Proof.
  unfold Context.increments, Context.decrements.
  induction n as [|n [IHi IHd]]; simpl; [split; reflexivity|].
  rewrite IHi, IHd. split; reflexivity.
Qed.

(** A run of [m] increments followed by one more, when [m] is 2^53. *)
Lemma one_increment_too_many now m :
  Z.of_nat m = exact_limit ->
  Context.count
    (Context.dispatch_all (repeat (now, Context.INCREMENT) (m + 1))
       Context.initialState) = exact_limit.
Proof.
  intros Hm. rewrite repeat_app. unfold Context.dispatch_all.
  rewrite fold_left_app.
  fold (Context.dispatch_all (repeat (now, Context.INCREMENT) m)
          Context.initialState).
  change (repeat (now, Context.INCREMENT) 1) with [(now, Context.INCREMENT)].
  cbn [fold_left fst snd Context.reducer Context.count].
  rewrite context_count_run
    by (rewrite repeat_length; cbn [Context.initialState Context.count]; lia).
  destruct (increments_repeat now m) as [-> ->].
  cbn [Context.initialState Context.count].
  replace (0 + Z.of_nat m - Z.of_nat 0) with exact_limit by lia.
  apply number_add_absorbed.
Qed.

End Counter.

(** C1, as stated, fails: the count is a double, and from 2^53 on adding 1
    is absorbed.  A run of 2^53 + 1 increments from the initial state ends
    with count 2^53, one less than the number of increments minus the number
    of decrements; likewise one [INCREMENT] reduced at count 2^53 leaves the
    count where it is. *)
Lemma count_absorbs_increment_at_2_53 :
  Context.count
    (Context.dispatch_all
       (repeat (0, Context.INCREMENT) (Z.to_nat (2 ^ 53 + 1)))
       Context.initialState) = 2 ^ 53
  /\ Z.of_nat (Context.increments
                 (repeat (0, Context.INCREMENT) (Z.to_nat (2 ^ 53 + 1))))
     - Z.of_nat (Context.decrements
                   (repeat (0, Context.INCREMENT) (Z.to_nat (2 ^ 53 + 1))))
     = 2 ^ 53 + 1
  /\ Context.count
       (Context.reducer 0 {| Context.count := 2 ^ 53; Context.todos := [] |}
          Context.INCREMENT) = 2 ^ 53.
Proof.
  assert (Hn : exists m, Z.to_nat (2 ^ 53 + 1) = (m + 1)%nat
                         /\ Z.of_nat m = exact_limit).
  { exists (Z.to_nat (2 ^ 53)). split.
    - rewrite Z2Nat.inj_add by lia. reflexivity.
    - apply Z2Nat.id. unfold exact_limit. lia. }
  destruct Hn as [m [-> Hm]].
  split; [|split].
  - now apply one_increment_too_many.
  - destruct (increments_repeat 0 (m + 1)) as [-> ->].
    rewrite Nat2Z.inj_add, Hm. unfold exact_limit. simpl Z.of_nat. lia.
  - apply number_add_absorbed.
Qed.

(** C1 (amended).  For every sequence of at most 2^53 calls made on a store
    started at [count = 0] (increments and decrements, also when additions
    and removals of todos come in between), the final count is the number
    of increments minus the number of decrements.  A decrement is never
    refused: from every state whose count lies above -2^53 and not above
    2^53 it yields the count minus one, so one decrement of the initial
    store gives -1. *)
Theorem count_is_increments_minus_decrements :
  (forall events,
     Z.of_nat (length events) <= 2 ^ 53 ->
     Context.count (Context.dispatch_all events Context.initialState)
     = Z.of_nat (Context.increments events)
       - Z.of_nat (Context.decrements events))
  /\ (forall calls,
        Z.of_nat (length calls) <= 2 ^ 53 ->
        Zustand.count (Zustand.call_all calls Zustand.initialState)
        = Z.of_nat (increment_calls calls) - Z.of_nat (decrement_calls calls))
  /\ (forall calls,
        Z.of_nat (length calls) <= 2 ^ 53 ->
        Mobx.count (Mobx.call_all calls Mobx.store)
        = Z.of_nat (increment_calls calls) - Z.of_nat (decrement_calls calls))
  /\ (forall now state,
        - 2 ^ 53 < Context.count state <= 2 ^ 53 ->
        Context.count (Context.reducer now state Context.DECREMENT)
        = Context.count state - 1)
  /\ (forall state,
        - 2 ^ 53 < Zustand.count state <= 2 ^ 53 ->
        Zustand.count (Zustand.decrement state) = Zustand.count state - 1)
  /\ (forall this,
        - 2 ^ 53 < Mobx.count this <= 2 ^ 53 ->
        Mobx.count (Mobx.decrement this) = Mobx.count this - 1)
  /\ (forall now,
        Context.count
          (Context.dispatch_all [(now, Context.DECREMENT)] Context.initialState)
        = -1).
Proof.
  split; [|split; [|split; [|split; [|split; [|split]]]]].
  - intros events H. rewrite context_count_run; simpl Context.count;
      unfold exact_limit; lia.
  - intros calls H. rewrite zustand_count_run; simpl Zustand.count;
      unfold exact_limit; lia.
  - intros calls H. rewrite mobx_count_run; simpl Mobx.count;
      unfold exact_limit; lia.
  - intros now state H. simpl. apply number_sub_exact. unfold exact_limit. lia.
  - intros state H. simpl. apply number_sub_exact. unfold exact_limit. lia.
  - intros this H. simpl. apply number_sub_exact. unfold exact_limit. lia.
  - intros now. vm_compute. reflexivity.
Qed.

Lemma count_is_increments_minus_decrements_witness :
  Z.of_nat (length [ (1, Context.INCREMENT); (2, Context.INCREMENT);
                     (3, Context.DECREMENT) ]) <= 2 ^ 53
  /\ Context.count
       (Context.dispatch_all
          [ (1, Context.INCREMENT); (2, Context.INCREMENT);
            (3, Context.DECREMENT) ] Context.initialState)
     = Z.of_nat (Context.increments
                   [ (1, Context.INCREMENT); (2, Context.INCREMENT);
                     (3, Context.DECREMENT) ])
       - Z.of_nat (Context.decrements
                     [ (1, Context.INCREMENT); (2, Context.INCREMENT);
                       (3, Context.DECREMENT) ]).
Proof.
  assert (H : Z.of_nat (length [ (1, Context.INCREMENT);
                                 (2, Context.INCREMENT);
                                 (3, Context.DECREMENT) ]) <= 2 ^ 53)
    by (simpl; lia).
  split; [exact H|].
  exact (proj1 count_is_increments_minus_decrements _ H).
Defined.

(* ================================================================= *)
(** ** Removal by id, on lists *)

Section RemovalById.

Variable id0 : jsstring.

Lemma keeps_true todo : keeps id0 todo = true <-> todo.(id) <> id0.
Proof. apply str_neqb_true. Qed.

Lemma keeps_false todo : keeps id0 todo = false <-> todo.(id) = id0.
Proof. apply str_neqb_false. Qed.

Lemma filter_keeps_unmatched l :
  ~ In id0 (ids l) -> Js.filter (keeps id0) l = l.
Proof.
  unfold Js.filter.
  induction l as [|t l IH]; simpl; intros H; [reflexivity|].
  destruct (keeps id0 t) eqn:E.
  - f_equal. apply IH. tauto.
  - apply keeps_false in E. tauto.
Qed.

Lemma filter_keeps_length l :
  (length (Js.filter (keeps id0) l) + occurrences id0 l = length l)%nat.
Proof.
  unfold Js.filter, occurrences, keeps, str_neqb.
  induction l as [|t l IH]; simpl; [reflexivity|].
  destruct (str_eqb (id t) id0); simpl; lia.
Qed.

Lemma filter_keeps_In l todo :
  In todo (Js.filter (keeps id0) l) <-> In todo l /\ todo.(id) <> id0.
Proof.
  unfold Js.filter. rewrite filter_In, keeps_true. tauto.
Qed.

Lemma filter_keeps_ids l : ~ In id0 (ids (Js.filter (keeps id0) l)).
Proof.
  unfold ids. rewrite in_map_iff. intros [t [Ht Hin]].
  apply filter_keeps_In in Hin. tauto.
Qed.

Lemma occurrences_none l : occurrences id0 l = 0%nat <-> ~ In id0 (ids l).
Proof.
  unfold occurrences, ids.
  induction l as [|t l IH]; simpl; [tauto|].
  destruct (str_eqb (id t) id0) eqn:E; simpl.
  - apply str_eqb_eq in E. split; [discriminate | tauto].
  - assert (id t <> id0)
      by (intros H; apply str_eqb_eq in H; congruence).
    rewrite IH. tauto.
Qed.

Lemma occurrences_distinct l :
  NoDup (ids l) -> In id0 (ids l) -> occurrences id0 l = 1%nat.
Proof.
  unfold ids.
  induction l as [|t l IH]; simpl; intros Hnd Hin; [tauto|].
  inversion Hnd as [|? ? Hnotin Hnd']; subst.
  unfold occurrences; simpl.
  destruct (str_eqb (id t) id0) eqn:E; simpl.
  - apply str_eqb_eq in E.
    f_equal. apply occurrences_none. rewrite <- E. exact Hnotin.
  - destruct Hin as [Hin|Hin].
    + apply str_eqb_eq in Hin. congruence.
    + apply IH; assumption.
Qed.

Lemma filter_keeps_snoc l todo :
  todo.(id) = id0 ->
  Js.filter (keeps id0) (l ++ [todo]) = Js.filter (keeps id0) l.
Proof.
  intros H. unfold Js.filter. rewrite filter_app. simpl.
  apply keeps_false in H. rewrite H. apply app_nil_r.
Qed.

End RemovalById.

Lemma filter_subseq {A} (p : A -> bool) (l : list A) :
  subseq (Js.filter p l) l.
Proof.
  unfold Js.filter.
  induction l as [|x l IH]; simpl; [constructor|].
  destruct (p x); constructor; exact IH.
Qed.

(* ================================================================= *)
(** ** Removal by id, in the three id-keyed stores *)

Section StoresRemoval.

Variable id0 : jsstring.

Lemma context_remove_todos now state :
  Context.todos (Context.reducer now state (Context.REMOVE_TODO id0))
  = Js.filter (keeps id0) (Context.todos state).
Proof. reflexivity. Qed.

Lemma zustand_remove_todos state :
  Zustand.todos (Zustand.removeTodo id0 state)
  = Js.filter (keeps id0) (Zustand.todos state).
Proof. reflexivity. Qed.

Lemma mobx_remove_todos this :
  Mobx.todos (Mobx.removeTodo id0 this)
  = Js.filter (keeps id0) (Mobx.todos this).
Proof. reflexivity. Qed.

Lemma recoil_remove_todos root :
  Recoil.todosState (Recoil.removeTodo id0 root)
  = Js.filter (keeps id0) (Recoil.todosState root).
Proof. reflexivity. Qed.

Lemma redux_remove_todos now state :
  Redux.items (Redux.todos (Redux.reducer now state (Redux.removeTodo id0)))
  = Js.filter (keeps id0) (Redux.items (Redux.todos state)).
Proof. reflexivity. Qed.

Lemma context_remove_unmatched now state :
  ~ In id0 (ids (Context.todos state)) ->
  Context.reducer now state (Context.REMOVE_TODO id0) = state.
Proof.
  intros H. destruct state as [c l]. simpl in *.
  f_equal. now apply filter_keeps_unmatched.
Qed.

Lemma zustand_remove_unmatched state :
  ~ In id0 (ids (Zustand.todos state)) -> Zustand.removeTodo id0 state = state.
Proof.
  intros H. destruct state as [c l]. unfold Zustand.removeTodo, Zustand.set.
  simpl in *. f_equal. now apply filter_keeps_unmatched.
Qed.

Lemma mobx_remove_unmatched this :
  ~ In id0 (ids (Mobx.todos this)) -> Mobx.removeTodo id0 this = this.
Proof.
  intros H. destruct this as [c l]. unfold Mobx.removeTodo.
  simpl in *. f_equal. now apply filter_keeps_unmatched.
Qed.

End StoresRemoval.

(** C5.  Removing an id that no todo of the list carries is a no-op in every
    id-keyed store: the call returns (the transition is a total function) and
    the state it returns, count and todos, is the state it was given. *)
Theorem remove_unmatched_is_noop (id0 : jsstring) :
  (forall now state,
     ~ In id0 (ids (Context.todos state)) ->
     Context.reducer now state (Context.REMOVE_TODO id0) = state)
  /\ (forall state,
        ~ In id0 (ids (Zustand.todos state)) ->
        Zustand.removeTodo id0 state = state)
  /\ (forall this,
        ~ In id0 (ids (Mobx.todos this)) -> Mobx.removeTodo id0 this = this).
Proof.
  split; [|split]; intros.
  - now apply context_remove_unmatched.
  - now apply zustand_remove_unmatched.
  - now apply mobx_remove_unmatched.
Qed.

Lemma remove_unmatched_is_noop_witness :
  ~ In (lit "42") (ids (Context.todos two_todos_same_ms))
  /\ Context.reducer 0 two_todos_same_ms (Context.REMOVE_TODO (lit "42"))
     = two_todos_same_ms.
Proof.
  assert (H : ~ In (lit "42") (ids (Context.todos two_todos_same_ms))).
  { vm_compute. intros [H|[H|[]]]; discriminate H. }
  split; [exact H|].
  exact (proj1 (remove_unmatched_is_noop (lit "42")) 0 two_todos_same_ms H).
Defined.

(** C4, as stated, fails: after two todos were added within one millisecond
    they share their id, and removing that id, which matches an entry, takes
    the list of the context store from length 2 to length 0, not to 1. *)
Lemma remove_matched_drops_two :
  In (toString same_ms) (ids (Context.todos two_todos_same_ms))
  /\ length (Context.todos two_todos_same_ms) = 2%nat
  /\ length (Context.todos
               (Context.reducer (same_ms + 1) two_todos_same_ms
                  (Context.REMOVE_TODO (toString same_ms)))) = 0%nat
  /\ (length (Context.todos
                (Context.reducer (same_ms + 1) two_todos_same_ms
                   (Context.REMOVE_TODO (toString same_ms)))) + 1
      <> length (Context.todos two_todos_same_ms))%nat.
Proof.
  split; [|split; [|split]].
  - left. reflexivity.
  - reflexivity.
  - vm_compute. reflexivity.
  - vm_compute. discriminate.
Qed.

(** C4 (amended).  In every id-keyed store, [removeTodo(ref)] yields a list
    exactly one shorter when exactly one entry has id [ref], which is the
    case whenever [ref] matches and the ids of the list are pairwise
    distinct; it yields the list unchanged when [ref] matches no entry. *)
Theorem remove_length (id0 : jsstring) :
  (forall now state,
     let after := Context.todos
                    (Context.reducer now state (Context.REMOVE_TODO id0)) in
     (occurrences id0 (Context.todos state) = 1%nat ->
      (length after + 1 = length (Context.todos state))%nat)
     /\ (NoDup (ids (Context.todos state)) ->
         In id0 (ids (Context.todos state)) ->
         (length after + 1 = length (Context.todos state))%nat)
     /\ (~ In id0 (ids (Context.todos state)) -> after = Context.todos state))
  /\ (forall state,
        let after := Zustand.todos (Zustand.removeTodo id0 state) in
        (occurrences id0 (Zustand.todos state) = 1%nat ->
         (length after + 1 = length (Zustand.todos state))%nat)
        /\ (NoDup (ids (Zustand.todos state)) ->
            In id0 (ids (Zustand.todos state)) ->
            (length after + 1 = length (Zustand.todos state))%nat)
        /\ (~ In id0 (ids (Zustand.todos state)) ->
            after = Zustand.todos state))
  /\ (forall this,
        let after := Mobx.todos (Mobx.removeTodo id0 this) in
        (occurrences id0 (Mobx.todos this) = 1%nat ->
         (length after + 1 = length (Mobx.todos this))%nat)
        /\ (NoDup (ids (Mobx.todos this)) ->
            In id0 (ids (Mobx.todos this)) ->
            (length after + 1 = length (Mobx.todos this))%nat)
        /\ (~ In id0 (ids (Mobx.todos this)) -> after = Mobx.todos this)).
Proof.
  assert (G : forall l,
             (occurrences id0 l = 1%nat ->
              (length (Js.filter (keeps id0) l) + 1 = length l)%nat)
             /\ (NoDup (ids l) -> In id0 (ids l) ->
                 (length (Js.filter (keeps id0) l) + 1 = length l)%nat)
             /\ (~ In id0 (ids l) -> Js.filter (keeps id0) l = l)).
  { intros l. pose proof (filter_keeps_length id0 l) as HL.
    split; [|split].
    - intros H1. lia.
    - intros Hnd Hin. rewrite (@occurrences_distinct id0 l Hnd Hin) in HL. lia.
    - apply filter_keeps_unmatched. }
  split; [|split]; intros; subst after.
  - rewrite context_remove_todos. apply G.
  - rewrite zustand_remove_todos. apply G.
  - rewrite mobx_remove_todos. apply G.
Qed.

Lemma remove_length_witness :
  NoDup (ids (Context.todos one_todo))
  /\ In (toString same_ms) (ids (Context.todos one_todo))
  /\ (length (Context.todos
                (Context.reducer 0 one_todo
                   (Context.REMOVE_TODO (toString same_ms)))) + 1
      = length (Context.todos one_todo))%nat.
Proof.
  assert (Hnd : NoDup (ids (Context.todos one_todo))).
  { vm_compute. constructor; [intros [] | constructor]. }
  assert (Hin : In (toString same_ms) (ids (Context.todos one_todo))).
  { left. reflexivity. }
  split; [exact Hnd | split; [exact Hin|]].
  exact (proj1 (proj2 (proj1 (remove_length (toString same_ms)) 0 one_todo))
           Hnd Hin).
Defined.

(** C10.  In every id-keyed store (context, zustand, mobx, recoil, redux)
    [removeTodo(id)] removes all the todos that carry the id: the list gets shorter by the number [k] of such
    entries, none of them is left, every other entry stays, and the entries
    that stay keep their relative order (the new list is the old one with
    entries deleted). *)
Theorem remove_drops_every_match (id0 : jsstring) :
  (forall now state,
     let before := Context.todos state in
     let after := Context.todos
                    (Context.reducer now state (Context.REMOVE_TODO id0)) in
     (length after + occurrences id0 before = length before)%nat
     /\ ~ In id0 (ids after)
     /\ (forall todo, In todo after <-> In todo before /\ todo.(id) <> id0)
     /\ subseq after before)
  /\ (forall state,
        let before := Zustand.todos state in
        let after := Zustand.todos (Zustand.removeTodo id0 state) in
        (length after + occurrences id0 before = length before)%nat
        /\ ~ In id0 (ids after)
        /\ (forall todo, In todo after <-> In todo before /\ todo.(id) <> id0)
        /\ subseq after before)
  /\ (forall this,
        let before := Mobx.todos this in
        let after := Mobx.todos (Mobx.removeTodo id0 this) in
        (length after + occurrences id0 before = length before)%nat
        /\ ~ In id0 (ids after)
        /\ (forall todo, In todo after <-> In todo before /\ todo.(id) <> id0)
        /\ subseq after before)
  /\ (forall root,
        let before := Recoil.todosState root in
        let after := Recoil.todosState (Recoil.removeTodo id0 root) in
        (length after + occurrences id0 before = length before)%nat
        /\ ~ In id0 (ids after)
        /\ (forall todo, In todo after <-> In todo before /\ todo.(id) <> id0)
        /\ subseq after before)
  /\ (forall now state,
        let before := Redux.items (Redux.todos state) in
        let after :=
          Redux.items
            (Redux.todos (Redux.reducer now state (Redux.removeTodo id0))) in
        (length after + occurrences id0 before = length before)%nat
        /\ ~ In id0 (ids after)
        /\ (forall todo, In todo after <-> In todo before /\ todo.(id) <> id0)
        /\ subseq after before).
Proof.
  assert (G : forall l,
             (length (Js.filter (keeps id0) l) + occurrences id0 l
              = length l)%nat
             /\ ~ In id0 (ids (Js.filter (keeps id0) l))
             /\ (forall todo, In todo (Js.filter (keeps id0) l)
                              <-> In todo l /\ todo.(id) <> id0)
             /\ subseq (Js.filter (keeps id0) l) l).
  { intros l. split; [|split; [|split]].
    - apply filter_keeps_length.
    - apply filter_keeps_ids.
    - intros todo. apply filter_keeps_In.
    - apply filter_subseq. }
  split; [|split; [|split; [|split]]]; intros; subst before after.
  - rewrite context_remove_todos. apply G.
  - rewrite zustand_remove_todos. apply G.
  - rewrite mobx_remove_todos. apply G.
  - rewrite recoil_remove_todos. apply G.
  - rewrite redux_remove_todos. apply G.
Qed.

(* ================================================================= *)
(** ** Adding a todo *)

Section Adding.

Variables (now : Z) (text0 : jsstring).

Lemma context_add_todos state :
  Context.todos (Context.reducer now state (Context.ADD_TODO text0))
  = Context.todos state ++ [ {| id := freshId now; text := text0 |} ].
Proof. reflexivity. Qed.

Lemma zustand_add_todos state :
  Zustand.todos (Zustand.addTodo now text0 state)
  = Zustand.todos state ++ [ {| id := freshId now; text := text0 |} ].
Proof. reflexivity. Qed.

Lemma mobx_add_todos this :
  Mobx.todos (Mobx.addTodo now text0 this)
  = Mobx.todos this ++ [ {| id := freshId now; text := text0 |} ].
Proof. reflexivity. Qed.

Lemma snoc_extends (l : list Todo) (todo : Todo) :
  length (l ++ [todo]) = S (length l)
  /\ firstn (length l) (l ++ [todo]) = l
  /\ nth_error (l ++ [todo]) (length l) = Some todo.
Proof.
  split; [|split].
  - rewrite length_app. simpl. lia.
  - rewrite firstn_app, Nat.sub_diag, firstn_all. simpl. apply app_nil_r.
  - rewrite nth_error_app2, Nat.sub_diag by lia. reflexivity.
Qed.

Lemma add_then_filter (l : list Todo) :
  ~ In (freshId now) (ids l) ->
  Js.filter (keeps (freshId now))
    (l ++ [ {| id := freshId now; text := text0 |} ]) = l.
Proof.
  intros H. rewrite filter_keeps_snoc by reflexivity.
  now apply filter_keeps_unmatched.
Qed.

End Adding.

(** C6.  In every id-keyed store [addTodo(text)] yields the prior list with
    the one entry [{id: Date.now().toString(), text}] appended at the tail:
    the list is one longer, its last entry is the new todo, and the todos
    that were there come first, unchanged and in their order. *)
Theorem add_appends_at_tail (now : Z) (text0 : jsstring) :
  let entry := {| id := freshId now; text := text0 |} in
  (forall state,
     let before := Context.todos state in
     let after := Context.todos
                    (Context.reducer now state (Context.ADD_TODO text0)) in
     after = before ++ [entry]
     /\ length after = S (length before)
     /\ firstn (length before) after = before
     /\ nth_error after (length before) = Some entry)
  /\ (forall state,
        let before := Zustand.todos state in
        let after := Zustand.todos (Zustand.addTodo now text0 state) in
        after = before ++ [entry]
        /\ length after = S (length before)
        /\ firstn (length before) after = before
        /\ nth_error after (length before) = Some entry)
  /\ (forall this,
        let before := Mobx.todos this in
        let after := Mobx.todos (Mobx.addTodo now text0 this) in
        after = before ++ [entry]
        /\ length after = S (length before)
        /\ firstn (length before) after = before
        /\ nth_error after (length before) = Some entry).
Proof.
  intros entry.
  split; [|split]; intros; subst before after entry.
  - rewrite context_add_todos.
    split; [reflexivity | apply snoc_extends].
  - rewrite zustand_add_todos.
    split; [reflexivity | apply snoc_extends].
  - rewrite mobx_add_todos.
    split; [reflexivity | apply snoc_extends].
Qed.

(** C2, as stated, fails: with "buy milk" in the list under the id of
    millisecond [same_ms], adding "walk dog" within the same millisecond and
    removing the id just assigned removes both todos; the list that held one
    entry before the pair of calls is empty after it. *)
Lemma add_then_remove_loses_older_todo :
  Context.todos
    (Context.reducer (same_ms + 1)
       (Context.reducer same_ms one_todo (Context.ADD_TODO (lit "walk dog")))
       (Context.REMOVE_TODO (freshId same_ms)))
  <> Context.todos one_todo.
Proof. vm_compute. discriminate. Qed.

(** C2 (amended).  For every state whose list holds no todo with the id that
    the new todo receives, [addTodo(t)] followed immediately by [removeTodo]
    of that id gives back the state before the pair of calls, list and
    count, in every id-keyed store. *)
Theorem add_then_remove_restores (now later : Z) (text0 : jsstring) :
  (forall state,
     ~ In (freshId now) (ids (Context.todos state)) ->
     Context.reducer later
       (Context.reducer now state (Context.ADD_TODO text0))
       (Context.REMOVE_TODO (freshId now)) = state)
  /\ (forall state,
        ~ In (freshId now) (ids (Zustand.todos state)) ->
        Zustand.removeTodo (freshId now) (Zustand.addTodo now text0 state)
        = state)
  /\ (forall this,
        ~ In (freshId now) (ids (Mobx.todos this)) ->
        Mobx.removeTodo (freshId now) (Mobx.addTodo now text0 this) = this).
Proof.
  split; [|split]; intros [c l] H; simpl in H.
  - unfold Context.reducer; simpl. f_equal. now apply add_then_filter.
  - unfold Zustand.removeTodo, Zustand.addTodo, Zustand.set; simpl.
    f_equal. now apply add_then_filter.
  - unfold Mobx.removeTodo, Mobx.addTodo, Mobx.push; simpl.
    f_equal. now apply add_then_filter.
Qed.

Lemma add_then_remove_restores_witness :
  ~ In (freshId (same_ms + 1)) (ids (Context.todos one_todo))
  /\ Context.reducer (same_ms + 2)
       (Context.reducer (same_ms + 1) one_todo
          (Context.ADD_TODO (lit "walk dog")))
       (Context.REMOVE_TODO (freshId (same_ms + 1))) = one_todo.
Proof.
  assert (H : ~ In (freshId (same_ms + 1)) (ids (Context.todos one_todo))).
  { vm_compute. intros [H|[]]; discriminate H. }
  split; [exact H|].
  exact (proj1 (add_then_remove_restores (same_ms + 1) (same_ms + 2)
                  (lit "walk dog")) one_todo H).
Defined.

(* ================================================================= *)
(** ** The ids given out by runs of [addTodo] *)

Section FreshIds.

Lemma ids_snoc l todo : ids (l ++ [todo]) = ids l ++ [todo.(id)].
Proof. unfold ids. now rewrite map_app. Qed.

Lemma context_adds_ids adds : forall state,
  ids (Context.todos
         (Context.dispatch_all (Context.add_events adds) state))
  = ids (Context.todos state) ++ map freshId (map fst adds).
Proof.
  induction adds as [|[now text0] adds IH]; intros state; simpl.
  - now rewrite app_nil_r.
  - unfold Context.dispatch_all in IH. rewrite IH. simpl.
    rewrite ids_snoc, <- app_assoc. reflexivity.
Qed.

Lemma zustand_adds_ids adds : forall state,
  ids (Zustand.todos (Zustand.call_all (add_calls adds) state))
  = ids (Zustand.todos state) ++ map freshId (map fst adds).
Proof.
  induction adds as [|[now text0] adds IH]; intros state; simpl.
  - now rewrite app_nil_r.
  - unfold Zustand.call_all in IH. rewrite IH. simpl.
    rewrite ids_snoc, <- app_assoc. reflexivity.
Qed.

Lemma mobx_adds_ids adds : forall this,
  ids (Mobx.todos (Mobx.call_all (add_calls adds) this))
  = ids (Mobx.todos this) ++ map freshId (map fst adds).
Proof.
  induction adds as [|[now text0] adds IH]; intros this; simpl.
  - now rewrite app_nil_r.
  - unfold Mobx.call_all in IH. rewrite IH. simpl.
    unfold Mobx.push. rewrite ids_snoc, <- app_assoc. reflexivity.
Qed.

(** The ids are pairwise distinct exactly when the clock readings are. *)
Lemma freshIds_NoDup (times : list Z) :
  NoDup (map freshId times) <-> NoDup times.
Proof.
  split; [apply NoDup_map_inv|].
  induction 1 as [|t times Hnotin Hnd IH]; simpl; constructor; [|exact IH].
  rewrite in_map_iff. intros [u [E Hin]].
  apply toString_inj in E. congruence.
Qed.

End FreshIds.

(** C3, as stated, fails: two consecutive [ADD_TODO] actions reduced within
    the same millisecond give both todos the same id. *)
Lemma same_ms_ids_collide :
  ids (Context.todos two_todos_same_ms)
  = [ lit "1700000000000"; lit "1700000000000" ]
  /\ ~ NoDup (ids (Context.todos two_todos_same_ms)).
Proof.
  split; [vm_compute; reflexivity|].
  intros H. inversion H as [|x l Hnotin Hnd]; subst.
  apply Hnotin. left. reflexivity.
Qed.

(** C3 (amended).  The ids given to the todos created by consecutive
    [addTodo] calls on a fresh store are pairwise distinct provided the clock
    readings ([Date.now()], in milliseconds) at these calls are pairwise
    distinct. *)
Theorem fresh_ids_distinct (adds : list (Z * jsstring)) :
  NoDup (map fst adds) ->
  NoDup (ids (Context.todos
                (Context.dispatch_all (Context.add_events adds)
                   Context.initialState)))
  /\ NoDup (ids (Zustand.todos
                   (Zustand.call_all (add_calls adds) Zustand.initialState)))
  /\ NoDup (ids (Mobx.todos (Mobx.call_all (add_calls adds) Mobx.store))).
Proof.
  intros H. apply freshIds_NoDup in H.
  rewrite context_adds_ids, zustand_adds_ids, mobx_adds_ids. simpl.
  auto.
Qed.

Lemma fresh_ids_distinct_witness :
  NoDup (map fst [ (same_ms, lit "buy milk"); (same_ms + 1, lit "walk dog") ])
  /\ NoDup (ids (Context.todos
                   (Context.dispatch_all
                      (Context.add_events
                         [ (same_ms, lit "buy milk");
                           (same_ms + 1, lit "walk dog") ])
                      Context.initialState))).
Proof.
  assert (H : NoDup (map fst [ (same_ms, lit "buy milk");
                               (same_ms + 1, lit "walk dog") ])).
  { simpl. constructor.
    - intros [E|[]]. vm_compute in E. discriminate E.
    - constructor; [intros [] | constructor]. }
  split; [exact H|].
  exact (proj1 (fresh_ids_distinct _ H)).
Defined.

(* ================================================================= *)
(** ** What each transition reads and writes *)

(** C8, as stated, fails in its last clause: [ADD_TODO] reads the clock,
    which is not part of the state, so the same action reduced on the same
    state at two different milliseconds yields two different states. *)
Lemma add_depends_on_clock :
  Context.reducer 1 Context.initialState (Context.ADD_TODO (lit "buy milk"))
  <> Context.reducer 2 Context.initialState (Context.ADD_TODO (lit "buy milk")).
Proof. vm_compute. discriminate. Qed.

(** C8 (amended).  Each of the four transitions changes only its own field:
    increment and decrement leave the todos unchanged, addTodo and removeTodo
    leave the count unchanged.  The new state is a function of the prior
    state and of the argument of the transition alone for increment,
    decrement and removeTodo; addTodo reads, besides these, the clock
    ([Date.now()]) from which it makes the id, and nothing else. *)
Theorem transitions_frame :
  (forall now state,
     Context.todos (Context.reducer now state Context.INCREMENT)
     = Context.todos state
     /\ Context.todos (Context.reducer now state Context.DECREMENT)
        = Context.todos state)
  /\ (forall now state text0 id0,
        Context.count (Context.reducer now state (Context.ADD_TODO text0))
        = Context.count state
        /\ Context.count (Context.reducer now state (Context.REMOVE_TODO id0))
           = Context.count state)
  /\ (forall now now' state id0,
        Context.reducer now state Context.INCREMENT
        = Context.reducer now' state Context.INCREMENT
        /\ Context.reducer now state Context.DECREMENT
           = Context.reducer now' state Context.DECREMENT
        /\ Context.reducer now state (Context.REMOVE_TODO id0)
           = Context.reducer now' state (Context.REMOVE_TODO id0))
  /\ (forall now state text0,
        Context.reducer now state (Context.ADD_TODO text0)
        = {| Context.count := Context.count state;
             Context.todos :=
               Context.todos state ++ [ {| id := toString now; text := text0 |} ]
          |})
  /\ (forall state,
        Zustand.todos (Zustand.increment state) = Zustand.todos state
        /\ Zustand.todos (Zustand.decrement state) = Zustand.todos state)
  /\ (forall now state text0 id0,
        Zustand.count (Zustand.addTodo now text0 state) = Zustand.count state
        /\ Zustand.count (Zustand.removeTodo id0 state) = Zustand.count state)
  /\ (forall now state text0,
        Zustand.addTodo now text0 state
        = {| Zustand.count := Zustand.count state;
             Zustand.todos :=
               Zustand.todos state ++ [ {| id := toString now; text := text0 |} ]
          |}).
Proof.
  repeat split.
Qed.

(* ================================================================= *)
(** ** Removal by position (src/store/context/store.ts) *)

Section RemovalByPosition.

Variable A : Type.
Variable payload : Z.

Let differs : A -> nat -> bool :=
  fun _ index => negb (Z.of_nat index =? payload).

Lemma filter_from_miss (l : list A) : forall k,
  payload < Z.of_nat k \/ Z.of_nat (k + length l) <= payload ->
  Js.filter_from differs k l = l.
Proof.
  induction l as [|x l IH]; intros k H; simpl; [reflexivity|].
  simpl in H. unfold differs at 1.
  destruct (Z.eqb_spec (Z.of_nat k) payload) as [E|E]; simpl; [lia|].
  f_equal. apply IH. lia.
Qed.

Lemma filter_from_hit (l : list A) : forall k,
  Z.of_nat k <= payload < Z.of_nat (k + length l) ->
  Js.filter_from differs k l = without_position (Z.to_nat payload - k) l.
Proof.
  induction l as [|x l IH]; intros k H; simpl in *; [lia|].
  unfold differs at 1.
  destruct (Z.eqb_spec (Z.of_nat k) payload) as [E|E]; simpl.
  - replace (Z.to_nat payload - k)%nat with 0%nat by lia.
    unfold without_position. simpl. apply filter_from_miss. lia.
  - rewrite IH by lia.
    replace (Z.to_nat payload - k)%nat
      with (S (Z.to_nat payload - S k)) by lia.
    reflexivity.
Qed.

Lemma without_position_length (l : list A) (i : nat) :
  (i < length l)%nat -> (length (without_position i l) + 1 = length l)%nat.
Proof.
  intros H. unfold without_position.
  rewrite length_app, length_firstn, length_skipn. lia.
Qed.

End RemovalByPosition.

(* ================================================================= *)
(** ** The add handler of BaseScreen *)

Section AddHandler.

Lemma onPress_guard (newTodo : jsstring) :
  BaseScreen.passed_to_store (BaseScreen.onPress newTodo)
  = if truthy (trim newTodo) then [newTodo] else [].
Proof.
  unfold BaseScreen.onPress. destruct (truthy (trim newTodo)); reflexivity.
Qed.

(** Empty and whitespace-only input never reaches the store. *)
Lemma onPress_blank (newTodo : jsstring) :
  trim newTodo = [] -> BaseScreen.onPress newTodo = [].
Proof. unfold BaseScreen.onPress. now intros ->. Qed.

(** Input that is non-empty after trimming reaches the store as typed. *)
Lemma onPress_nonblank (newTodo : jsstring) :
  trim newTodo <> [] ->
  BaseScreen.passed_to_store (BaseScreen.onPress newTodo) = [newTodo].
Proof.
  intros H. rewrite onPress_guard.
  destruct (trim newTodo); [congruence | reflexivity].
Qed.

End AddHandler.

(** C7.  The handler tests the trimmed input but hands the input itself to
    [onAddTodo]: on [" a "] the store receives [" a "], which is not the
    trimmed string ["a"]. *)
Theorem onPress_passes_untrimmed_text :
  BaseScreen.onPress (lit " a ")
  = [ BaseScreen.onAddTodo (lit " a "); BaseScreen.setNewTodo (lit "") ]
  /\ trim (lit " a ") = lit "a"
  /\ BaseScreen.passed_to_store (BaseScreen.onPress (lit " a "))
     <> [ trim (lit " a ") ].
Proof.
  split; [|split].
  - vm_compute. reflexivity.
  - vm_compute. reflexivity.
  - vm_compute. discriminate.
Qed.


(* ================================================================= *)
(** ** White space and [trim] *)

Section Trim.

Lemma dropWhile_split p s :
  exists pre, s = pre ++ dropWhile p s /\ forallb p pre = true.
Proof.
  induction s as [|c s [pre [E F]]]; simpl.
  - exists []. auto.
  - destruct (p c) eqn:Hc.
    + exists (c :: pre). simpl. rewrite Hc, F. split; [now f_equal | reflexivity].
    + exists []. auto.
Qed.

Lemma dropWhile_starts_clean s : starts_clean (dropWhile isWhiteSpace s) = true.
Proof.
  induction s as [|c s IH]; simpl; [reflexivity|].
  destruct (isWhiteSpace c) eqn:Hc; [exact IH|]. simpl. now rewrite Hc.
Qed.

Lemma dropWhile_clean s : starts_clean s = true -> dropWhile isWhiteSpace s = s.
Proof.
  destruct s as [|c s]; simpl; [reflexivity|].
  now destruct (isWhiteSpace c).
Qed.

Lemma dropWhile_nil s : dropWhile isWhiteSpace s = [] <-> blank s = true.
Proof.
  unfold blank. induction s as [|c s IH]; simpl; [tauto|].
  destruct (isWhiteSpace c); simpl; [exact IH|].
  split; discriminate.
Qed.

Lemma blank_app s t : blank (s ++ t) = blank s && blank t.
Proof. apply forallb_app. Qed.

Lemma blank_rev s : blank (rev s) = blank s.
Proof.
  induction s as [|c s IH]; simpl; [reflexivity|].
  rewrite blank_app, IH. simpl. rewrite andb_true_r. apply andb_comm.
Qed.

Lemma blank_clean_nil s : blank s = true -> starts_clean s = true -> s = [].
Proof.
  destruct s as [|c s]; simpl; [reflexivity|].
  destruct (isWhiteSpace c); simpl; discriminate.
Qed.

(** [trim] cuts a blank prefix and a blank suffix off the string. *)
Lemma trim_split s :
  exists pre post,
    s = pre ++ trim s ++ post /\ blank pre = true /\ blank post = true.
Proof.
  unfold trim, trimEnd, trimStart.
  destruct (dropWhile_split isWhiteSpace s) as [pre [E1 F1]].
  destruct (dropWhile_split isWhiteSpace (rev (dropWhile isWhiteSpace s)))
    as [post [E2 F2]].
  exists pre, (rev post). repeat split.
  - rewrite <- rev_app_distr, <- E2, rev_involutive. exact E1.
  - exact F1.
  - rewrite blank_rev. exact F2.
Qed.

Lemma trim_trimmed s : trimmed (trim s) = true.
Proof.
  unfold trimmed, trim, trimEnd, trimStart.
  rewrite rev_involutive, dropWhile_starts_clean, andb_true_r.
  pose proof (dropWhile_starts_clean s) as Hd.
  destruct (dropWhile_split isWhiteSpace (rev (dropWhile isWhiteSpace s)))
    as [post [E F]].
  apply (f_equal (@rev _)) in E. rewrite rev_involutive, rev_app_distr in E.
  destruct (rev (dropWhile isWhiteSpace (rev (dropWhile isWhiteSpace s))))
    as [|c t]; [reflexivity|].
  rewrite E in Hd. exact Hd.
Qed.

Lemma trim_of_trimmed s : trimmed s = true -> trim s = s.
Proof.
  unfold trimmed, trim, trimEnd, trimStart.
  rewrite andb_true_iff. intros [H1 H2].
  rewrite (dropWhile_clean _ H1), (dropWhile_clean _ H2).
  apply rev_involutive.
Qed.

Lemma trim_nil s : trim s = [] <-> blank s = true.
Proof.
  split.
  - intros H. destruct (trim_split s) as [pre [post [E [F1 F2]]]].
    rewrite H in E. rewrite E, !blank_app, F1, F2. reflexivity.
  - intros H. unfold trim, trimEnd, trimStart.
    apply dropWhile_nil in H. rewrite H. reflexivity.
Qed.

Lemma truthy_trim s : truthy (trim s) = negb (blank s).
Proof.
  destruct (blank s) eqn:B.
  - apply trim_nil in B. now rewrite B.
  - destruct (trim s) eqn:T; [|reflexivity].
    apply trim_nil in T. congruence.
Qed.

End Trim.

(* ================================================================= *)
(** ** The add handlers of the screens *)

(** X1.  The add handler of [BaseScreen] does nothing (no call of
    [onAddTodo], the input is not cleared) when the input is empty or holds
    only white space; otherwise it calls [onAddTodo] once, with the input
    exactly as typed, and then clears the input. *)
Theorem onPress_by_blankness (newTodo : jsstring) :
  BaseScreen.onPress newTodo
  = if blank newTodo then []
    else [ BaseScreen.onAddTodo newTodo; BaseScreen.setNewTodo [] ].
Proof.
  unfold BaseScreen.onPress. rewrite truthy_trim.
  destruct (blank newTodo); reflexivity.
Qed.

(** X2.  The text [BaseScreen] hands to the store is the trimmed input
    exactly when the input is not blank and has no white space at either
    end; on every other non-blank input the store receives the surrounding
    white space as well. *)
Theorem onPress_passes_trimmed_iff (newTodo : jsstring) :
  BaseScreen.passed_to_store (BaseScreen.onPress newTodo) = [ trim newTodo ]
  <-> blank newTodo = false /\ trimmed newTodo = true.
Proof.
  rewrite onPress_by_blankness.
  destruct (blank newTodo) eqn:B; simpl.
  - split; [discriminate | intros [H _]; discriminate H].
  - split.
    + intros [= H]. split; [reflexivity|]. rewrite H. apply trim_trimmed.
    + intros [_ H]. now rewrite (trim_of_trimmed _ H).
Qed.

(** X3.  [handleAddTodo] of the guide's screen leaves the screen as it is on
    a blank input; on any other input it appends one item, the input without
    the white space around it (never empty, no white space at either end),
    clears the input and leaves the counter alone. *)
Theorem guide_handleAddTodo (scr : GuideScreen.Screen) :
  let after := GuideScreen.handleAddTodo scr in
  let items_of (s : GuideScreen.Screen) :=
    ContextStore.items (ContextStore.todos (GuideScreen.store s)) in
  (blank (GuideScreen.newTodo scr) = true -> after = scr)
  /\ (blank (GuideScreen.newTodo scr) = false ->
      exists item pre post,
        items_of after = items_of scr ++ [item]
        /\ GuideScreen.newTodo scr = pre ++ item ++ post
        /\ blank pre = true /\ blank post = true
        /\ item <> [] /\ trimmed item = true
        /\ GuideScreen.newTodo after = []
        /\ ContextStore.counter (GuideScreen.store after)
           = ContextStore.counter (GuideScreen.store scr)).
Proof.
  intros after items_of. subst after items_of.
  unfold GuideScreen.handleAddTodo. rewrite truthy_trim.
  split; intros B; rewrite B; simpl; [reflexivity|].
  destruct (trim_split (GuideScreen.newTodo scr)) as [pre [post [E [F1 F2]]]].
  exists (trim (GuideScreen.newTodo scr)), pre, post.
  repeat split; try assumption.
  - intros H. apply trim_nil in H. congruence.
  - apply trim_trimmed.
Qed.

Lemma guide_handleAddTodo_witness :
  blank (lit " a ") = false
  /\ exists item pre post,
       ContextStore.items
         (ContextStore.todos
            (GuideScreen.store
               (GuideScreen.handleAddTodo
                  {| GuideScreen.store := ContextStore.initialState;
                     GuideScreen.newTodo := lit " a " |})))
       = [] ++ [item]
       /\ lit " a " = pre ++ item ++ post
       /\ blank pre = true /\ blank post = true
       /\ item <> [] /\ trimmed item = true.
Proof.
  assert (B : blank (lit " a ") = false) by (vm_compute; reflexivity).
  split; [exact B|].
  destruct (proj2 (guide_handleAddTodo
                     {| GuideScreen.store := ContextStore.initialState;
                        GuideScreen.newTodo := lit " a " |}) B)
    as [item [pre [post [H1 [H2 [H3 [H4 [H5 [H6 _]]]]]]]]].
  exists item, pre, post. repeat split; assumption.
Defined.

(* ================================================================= *)
(** ** The context screen as the user drives it *)

Section ContextScreenFacts.

Lemma press_add_blank now scr :
  blank (ContextScreen.newTodo scr) = true ->
  ContextScreen.handle now scr ContextScreen.PressAdd = scr.
Proof.
  intros B. unfold ContextScreen.handle.
  rewrite onPress_by_blankness, B. reflexivity.
Qed.

Lemma press_add_nonblank now scr :
  blank (ContextScreen.newTodo scr) = false ->
  ContextScreen.handle now scr ContextScreen.PressAdd
  = {| ContextScreen.state :=
         Context.reducer now (ContextScreen.state scr)
           (Context.ADD_TODO (ContextScreen.newTodo scr));
       ContextScreen.newTodo := [] |}.
Proof.
  intros B. unfold ContextScreen.handle.
  rewrite onPress_by_blankness, B. reflexivity.
Qed.

Lemma filter_nodup_row (l : list Todo) : forall row item,
  NoDup (ids l) -> nth_error l row = Some item ->
  Js.filter (keeps item.(id)) l = without_position row l.
Proof.
  induction l as [|x l IH]; intros [|row] item Hnd Hnth; simpl in *;
    try discriminate.
  - injection Hnth as ->. inversion Hnd as [|? ? Hnotin Hnd']; subst.
    unfold Js.filter; simpl.
    replace (keeps (id item) item) with false
      by (symmetry; now apply keeps_false).
    apply filter_keeps_unmatched. exact Hnotin.
  - inversion Hnd as [|? ? Hnotin Hnd']; subst.
    assert (Hin : In item.(id) (ids l)).
    { apply in_map. eapply nth_error_In. exact Hnth. }
    assert (Hx : keeps (id item) x = true).
    { apply keeps_true. intros E. rewrite E in Hnotin. tauto. }
    unfold Js.filter; simpl. rewrite Hx.
    unfold without_position. simpl. f_equal.
    apply (IH row item Hnd' Hnth).
Qed.

End ContextScreenFacts.


(** X5.  Whatever the user does on the context screen from its mount, no
    todo of the list has a blank text (empty or white space only). *)
Theorem screen_todos_never_blank (events : list (Z * ContextScreen.Event)) :
  Forall (fun todo => blank todo.(text) = false)
    (Context.todos
       (ContextScreen.state
          (ContextScreen.handle_all events ContextScreen.mounted))).
Proof.
  assert (G : forall scr,
             Forall (fun todo => blank todo.(text) = false)
               (Context.todos (ContextScreen.state scr)) ->
             Forall (fun todo => blank todo.(text) = false)
               (Context.todos
                  (ContextScreen.state (ContextScreen.handle_all events scr)))).
  { induction events as [|[now ev] events IH]; intros scr H; [exact H|].
    simpl. apply IH. destruct ev; try exact H.
    - destruct (blank (ContextScreen.newTodo scr)) eqn:B.
      + now rewrite (press_add_blank now scr B).
      + rewrite (press_add_nonblank now scr B). simpl.
        apply Forall_app. split; [exact H|]. constructor; [exact B|constructor].
    - unfold ContextScreen.handle.
      destruct (nth_error (Context.todos (ContextScreen.state scr)) row);
        [|exact H].
      simpl. rewrite Forall_forall in *. intros todo Htodo.
      apply filter_In in Htodo. apply H. tauto. }
  apply G. constructor.
Qed.

(** X6.  Pressing the trash button of a row removes the todo of that row
    from the list, which gets strictly shorter, and keeps the todos that
    have another id; when the ids of the list are pairwise distinct the new
    list is the old one without that row. *)
Theorem press_remove_row (now : Z) (scr : ContextScreen.Screen)
    (row : nat) (item : Todo) :
  let before := Context.todos (ContextScreen.state scr) in
  let after :=
    Context.todos
      (ContextScreen.state
         (ContextScreen.handle now scr (ContextScreen.PressRemove row))) in
  nth_error before row = Some item ->
  ~ In item after
  /\ (length after < length before)%nat
  /\ (forall todo, In todo after <-> In todo before /\ todo.(id) <> item.(id))
  /\ (NoDup (ids before) -> after = without_position row before).
Proof.
  intros before after Hnth. subst before after.
  unfold ContextScreen.handle. rewrite Hnth. simpl.
  set (l := Context.todos (ContextScreen.state scr)) in *.
  assert (Hin : In item l) by (eapply nth_error_In; exact Hnth).
  split; [|split; [|split]].
  - intros H. apply filter_keeps_In in H. tauto.
  - pose proof (filter_keeps_length item.(id) l) as HL.
    assert (occurrences item.(id) l <> 0)%nat.
    { intros H0. apply occurrences_none in H0. apply H0. now apply in_map. }
    fold (keeps item.(id)). unfold Js.filter in HL. unfold Js.filter. lia.
  - intros todo. apply filter_keeps_In.
  - intros Hnd. now apply filter_nodup_row.
Qed.

Lemma press_remove_row_witness :
  nth_error (Context.todos two_todos_same_ms) 1
  = Some {| id := toString same_ms; text := lit "walk dog" |}
  /\ (length
        (Context.todos
           (ContextScreen.state
              (ContextScreen.handle 0
                 {| ContextScreen.state := two_todos_same_ms;
                    ContextScreen.newTodo := [] |}
                 (ContextScreen.PressRemove 1))))
      < length (Context.todos two_todos_same_ms))%nat.
Proof.
  assert (H : nth_error (Context.todos two_todos_same_ms) 1
              = Some {| id := toString same_ms; text := lit "walk dog" |})
    by reflexivity.
  split; [exact H|].
  exact (proj1 (proj2 (press_remove_row 0
                         {| ContextScreen.state := two_todos_same_ms;
                            ContextScreen.newTodo := [] |} 1 H))).
Defined.

(* ================================================================= *)
(** ** The id-keyed stores side by side *)

Section SideBySide.

Lemma same_view_step now call c z m r x :
  same_view c z m r x ->
  same_view (Context.reducer now c (action_of_call call))
            (Zustand.call now call z) (Mobx.call now call m)
            (Recoil.call now call r)
            (Redux.reducer now x (Redux.action_of call)).
Proof.
  destruct c as [cc cl], z as [zc zl], m as [mc ml], r as [rc rl],
           x as [[xc] [xl]].
  unfold same_view; simpl.
  intros [[-> ->] [[-> ->] [[-> ->] [-> ->]]]].
  destruct call; simpl; repeat split; reflexivity.
Qed.

Lemma same_view_run calls : forall c z m r x,
  same_view c z m r x ->
  same_view (Context.dispatch_all (actions_of_calls calls) c)
            (Zustand.call_all calls z) (Mobx.call_all calls m)
            (Recoil.call_all calls r) (Redux.dispatch_all calls x).
Proof.
  induction calls as [|[now call] calls IH]; intros c z m r x H; [exact H|].
  simpl. apply IH. now apply same_view_step.
Qed.

End SideBySide.

(** X7.  The context reducer, the zustand store, the mobx store, the recoil
    atoms and the redux slices are the same store: driven from their initial
    states by the same calls at the same clock readings, they hold the same
    count and the same list of todos. *)
Theorem id_keyed_stores_agree (calls : list (Z * Call)) :
  same_view
    (Context.dispatch_all (actions_of_calls calls) Context.initialState)
    (Zustand.call_all calls Zustand.initialState)
    (Mobx.call_all calls Mobx.store)
    (Recoil.call_all calls Recoil.defaults)
    (Redux.dispatch_all calls Redux.initialState).
Proof.
  apply same_view_run. unfold same_view; simpl. repeat split.
Qed.

(* ================================================================= *)
(** ** What a run of the context store keeps *)

Section Subsequences.

Context {A B : Type}.

Lemma subseq_refl (l : list A) : subseq l l.
Proof.
  induction l as [|x l IH]; [apply subseq_nil | apply subseq_keep, IH].
Qed.

Lemma subseq_app (l1 l2 r1 r2 : list A) :
  subseq l1 l2 -> subseq r1 r2 -> subseq (l1 ++ r1) (l2 ++ r2).
Proof.
  induction 1 as [|x l1 l2 H IH|x l1 l2 H IH]; intros Hr; simpl.
  - exact Hr.
  - apply subseq_skip. now apply IH.
  - apply subseq_keep. now apply IH.
Qed.

Lemma subseq_trans (l1 l2 l3 : list A) :
  subseq l1 l2 -> subseq l2 l3 -> subseq l1 l3.
Proof.
  intros H12 H23. revert l1 H12.
  induction H23 as [|x l2 l3 H23 IH|x l2 l3 H23 IH]; intros l1 H12.
  - exact H12.
  - apply subseq_skip. now apply IH.
  - inversion H12; subst.
    + apply subseq_skip. now apply IH.
    + apply subseq_keep. now apply IH.
Qed.

Lemma subseq_In (l1 l2 : list A) x : subseq l1 l2 -> In x l1 -> In x l2.
Proof. induction 1; simpl; intuition. Qed.

Lemma subseq_NoDup (l1 l2 : list A) : subseq l1 l2 -> NoDup l2 -> NoDup l1.
Proof.
  induction 1 as [|x l1 l2 H IH|x l1 l2 H IH]; intros Hnd.
  - constructor.
  - inversion Hnd; subst. now apply IH.
  - inversion Hnd as [|? ? Hnotin Hnd']; subst. constructor; [|now apply IH].
    intros Hin. apply Hnotin. eapply subseq_In; eassumption.
Qed.

Lemma subseq_map (f : A -> B) (l1 l2 : list A) :
  subseq l1 l2 -> subseq (map f l1) (map f l2).
Proof.
  induction 1 as [|x l1 l2 H IH|x l1 l2 H IH]; simpl.
  - constructor.
  - apply subseq_skip. exact IH.
  - apply subseq_keep. exact IH.
Qed.

End Subsequences.

Section ContextRuns.

Lemma run_subseq events : forall state,
  subseq (Context.todos (Context.dispatch_all events state))
         (Context.todos state ++ added events).
Proof.
  induction events as [|[now action] events IH]; intros state.
  - simpl. rewrite app_nil_r. apply subseq_refl.
  - change (Context.dispatch_all ((now, action) :: events) state)
      with (Context.dispatch_all events (Context.reducer now state action)).
    eapply subseq_trans; [apply IH|].
    destruct action; simpl; try apply subseq_refl.
    + rewrite <- app_assoc. apply subseq_refl.
    + apply subseq_app; [apply filter_subseq | apply subseq_refl].
Qed.

Lemma added_ids events : ids (added events) = map freshId (add_times events).
Proof.
  unfold ids, added, add_times.
  induction events as [|[now action] events IH]; simpl; [reflexivity|].
  rewrite !map_app, IH. destruct action; reflexivity.
Qed.

Lemma ids_app l1 l2 : ids (l1 ++ l2) = ids l1 ++ ids l2.
Proof. apply map_app. Qed.

Lemma existsb_id_In id0 l :
  existsb (fun todo => str_eqb todo.(id) id0) l = true -> In id0 (ids l).
Proof.
  rewrite existsb_exists. intros [t [Hin E]]. apply str_eqb_eq in E.
  rewrite <- E. now apply in_map.
Qed.

Lemma run_length events : forall state,
  NoDup (ids (Context.todos state) ++ map freshId (add_times events)) ->
  removals_matched events state = true ->
  (length (Context.todos (Context.dispatch_all events state))
   + removals events
   = length (Context.todos state) + additions events)%nat.
Proof.
  unfold removals, additions.
  induction events as [|[now action] events IH]; intros state Hnd Hm.
  - simpl. lia.
  - change (Context.dispatch_all ((now, action) :: events) state)
      with (Context.dispatch_all events (Context.reducer now state action)).
    simpl in Hm. apply andb_true_iff in Hm. destruct Hm as [Hhere Hm].
    specialize (IH (Context.reducer now state action)).
    destruct action; simpl in *.
    + apply IH; assumption.
    + apply IH; assumption.
    + rewrite ids_app, <- app_assoc in IH. simpl in IH.
      specialize (IH Hnd Hm). rewrite length_app in IH. simpl in IH. lia.
    + pose proof (filter_keeps_length id0 (Context.todos state)) as HL.
      rewrite (@occurrences_distinct id0 (Context.todos state)) in HL;
        [|eapply NoDup_app_remove_r; exact Hnd | now apply existsb_id_In].
      unfold Js.filter, keeps in HL. unfold Js.filter in IH.
      assert (Hnd' : NoDup
                       (ids (List.filter
                               (fun todo => str_neqb (id todo) id0)
                               (Context.todos state))
                        ++ map freshId (add_times events))).
      { eapply subseq_NoDup; [|exact Hnd].
        apply subseq_app; [|apply subseq_refl].
        apply subseq_map. apply (filter_subseq (keeps id0)). }
      specialize (IH Hnd' Hm). unfold Js.filter. lia.
Qed.

End ContextRuns.

(** X8.  The list of a run of the context store is made of entries that
    [ADD_TODO] actions of the run built, each at most once and in the order
    of their addition: the store never reorders, duplicates, alters or
    invents a todo. *)
Theorem run_keeps_added_order (events : list (Z * Context.Action)) :
  subseq (Context.todos (Context.dispatch_all events Context.initialState))
         (added events).
Proof. apply (run_subseq events Context.initialState). Qed.

(** X9.  In a run of the context store in which the clock readings at the
    [ADD_TODO] actions are pairwise distinct, the ids of the list are
    pairwise distinct at the end, whatever removals, increments and
    decrements come in between. *)
Theorem run_ids_distinct (events : list (Z * Context.Action)) :
  NoDup (add_times events) ->
  NoDup (ids (Context.todos
                (Context.dispatch_all events Context.initialState))).
Proof.
  intros H. apply freshIds_NoDup in H. rewrite <- added_ids in H.
  eapply subseq_NoDup; [|exact H].
  apply subseq_map. apply (run_subseq events Context.initialState).
Qed.

(** X10.  In a run of the context store from its initial state in which the
    clock readings at the additions are pairwise distinct and every removal
    names an id that is in the list at that moment, the final list has as
    many todos as there were additions minus removals. *)
Theorem run_length_adds_minus_removes (events : list (Z * Context.Action)) :
  NoDup (add_times events) ->
  removals_matched events Context.initialState = true ->
  (length (Context.todos (Context.dispatch_all events Context.initialState))
   + removals events = additions events)%nat.
Proof.
  intros Hnd Hm. apply freshIds_NoDup in Hnd.
  apply (run_length events Context.initialState); assumption.
Qed.

Lemma run_ids_distinct_witness :
  NoDup (add_times [ (1, Context.ADD_TODO (lit "a"));
                     (2, Context.ADD_TODO (lit "b"));
                     (3, Context.REMOVE_TODO (lit "1")) ])
  /\ NoDup (ids (Context.todos
                   (Context.dispatch_all
                      [ (1, Context.ADD_TODO (lit "a"));
                        (2, Context.ADD_TODO (lit "b"));
                        (3, Context.REMOVE_TODO (lit "1")) ]
                      Context.initialState))).
Proof.
  assert (H : NoDup (add_times [ (1, Context.ADD_TODO (lit "a"));
                                 (2, Context.ADD_TODO (lit "b"));
                                 (3, Context.REMOVE_TODO (lit "1")) ])).
  { simpl. constructor.
    - intros [E|[]]. discriminate E.
    - constructor; [intros [] | constructor]. }
  split; [exact H|]. exact (run_ids_distinct _ H).
Defined.

Lemma run_length_adds_minus_removes_witness :
  NoDup (add_times [ (1, Context.ADD_TODO (lit "a"));
                     (2, Context.ADD_TODO (lit "b"));
                     (3, Context.REMOVE_TODO (lit "1")) ])
  /\ removals_matched [ (1, Context.ADD_TODO (lit "a"));
                        (2, Context.ADD_TODO (lit "b"));
                        (3, Context.REMOVE_TODO (lit "1")) ]
       Context.initialState = true
  /\ Nat.add
       (length (Context.todos
                  (Context.dispatch_all
                     [ (1, Context.ADD_TODO (lit "a"));
                       (2, Context.ADD_TODO (lit "b"));
                       (3, Context.REMOVE_TODO (lit "1")) ]
                     Context.initialState)))
       (removals [ (1, Context.ADD_TODO (lit "a"));
                   (2, Context.ADD_TODO (lit "b"));
                   (3, Context.REMOVE_TODO (lit "1")) ])
     = additions [ (1, Context.ADD_TODO (lit "a"));
                   (2, Context.ADD_TODO (lit "b"));
                   (3, Context.REMOVE_TODO (lit "1")) ].
Proof.
  assert (H : NoDup (add_times [ (1, Context.ADD_TODO (lit "a"));
                                 (2, Context.ADD_TODO (lit "b"));
                                 (3, Context.REMOVE_TODO (lit "1")) ])).
  { simpl. constructor.
    - intros [E|[]]. discriminate E.
    - constructor; [intros [] | constructor]. }
  assert (M : removals_matched [ (1, Context.ADD_TODO (lit "a"));
                                 (2, Context.ADD_TODO (lit "b"));
                                 (3, Context.REMOVE_TODO (lit "1")) ]
                Context.initialState = true) by (vm_compute; reflexivity).
  split; [exact H | split; [exact M|]].
  exact (run_length_adds_minus_removes _ H M).
Defined.

(* ================================================================= *)
(** ** The position-keyed stores of the guides *)

Section PositionKeyed.

Lemma without_last {A} (l : list A) (x : A) :
  without_position (length l) (l ++ [x]) = l.
Proof.
  unfold without_position.
  rewrite skipn_all2 by (rewrite length_app; simpl; lia).
  rewrite firstn_app, Nat.sub_diag, firstn_all. simpl.
  now rewrite !app_nil_r.
Qed.

Lemma remove_position_items state i :
  ContextStore.items
    (ContextStore.todos
       (ContextStore.reducer state (ContextStore.REMOVE_TODO i)))
  = if (0 <=? i) && (i <? Z.of_nat (length (ContextStore.items
                                              (ContextStore.todos state))))
    then without_position (Z.to_nat i)
           (ContextStore.items (ContextStore.todos state))
    else ContextStore.items (ContextStore.todos state).
Proof.
  simpl. unfold Js.filter_indexed.
  destruct (Z.leb_spec 0 i); simpl.
  - destruct (Z.ltb_spec i (Z.of_nat (length (ContextStore.items
                                                 (ContextStore.todos state))))).
    + rewrite filter_from_hit by (simpl; lia). now rewrite Nat.sub_0_r.
    + apply filter_from_miss. simpl. lia.
  - apply filter_from_miss. lia.
Qed.

Lemma call_all_adds texts : forall state,
  ContextActions.call_all (map ContextActions.addTodo texts) state
  = {| ContextStore.counter := ContextStore.counter state;
       ContextStore.todos :=
         {| ContextStore.items :=
              ContextStore.items (ContextStore.todos state) ++ texts |} |}.
Proof.
  induction texts as [|t texts IH]; intros [c [l]]; simpl.
  - now rewrite app_nil_r.
  - unfold ContextActions.call_all in IH. rewrite IH. simpl.
    now rewrite <- app_assoc.
Qed.

Lemma call_all_remove_first m : forall state,
  ContextActions.call_all (repeat (ContextActions.removeTodo 0) m) state
  = {| ContextStore.counter := ContextStore.counter state;
       ContextStore.todos :=
         {| ContextStore.items :=
              skipn m (ContextStore.items (ContextStore.todos state)) |} |}.
Proof.
  induction m as [|m IH]; intros [c [l]]; [reflexivity|].
  change (ContextActions.call_all
            (repeat (ContextActions.removeTodo 0) (S m))
            (ContextStore.mkState c (ContextStore.mkTodos l)))
    with (ContextActions.call_all (repeat (ContextActions.removeTodo 0) m)
            (ContextStore.reducer
               (ContextStore.mkState c (ContextStore.mkTodos l))
               (ContextStore.REMOVE_TODO 0))).
  rewrite IH. f_equal. f_equal.
  rewrite remove_position_items. simpl ContextStore.items.
  destruct l as [|x l]; simpl; [now rewrite skipn_nil|].
  reflexivity.
Qed.

Lemma filter_from_In {A} (p : A -> nat -> bool) (l : list A) : forall k x,
  In x (Js.filter_from p k l) -> In x l.
Proof.
  induction l as [|y l IH]; intros k x; simpl; [tauto|].
  destruct (p y k); simpl; intros H.
  - destruct H as [H|H]; [now left | right; eapply IH; exact H].
  - right. eapply IH. exact H.
Qed.

End PositionKeyed.

(** X11.  In the position-keyed store of the guide, [ADD_TODO] followed by
    [REMOVE_TODO] of the last position gives back the state there was
    before the two actions, from every state. *)
Theorem add_then_remove_last (state : ContextStore.State) (payload : jsstring) :
  ContextStore.reducer
    (ContextStore.reducer state (ContextStore.ADD_TODO payload))
    (ContextStore.REMOVE_TODO
       (Z.of_nat (length (ContextStore.items (ContextStore.todos state)))))
  = state.
Proof.
  destruct state as [c [l]]. simpl. f_equal. f_equal.
  unfold Js.filter_indexed.
  rewrite filter_from_hit by (rewrite length_app; simpl; lia).
  rewrite Nat.sub_0_r, Nat2Z.id. apply without_last.
Qed.

(** X12.  Adding texts through [useTodoActions] and then calling
    [removeTodo(0)] [m] times leaves the old items followed by the new texts
    without their first [m] entries (all of them gone when [m] exceeds their
    number), and the counter as it was. *)
Theorem adds_then_remove_first (texts : list jsstring) (m : nat)
    (state : ContextStore.State) :
  let after :=
    ContextActions.call_all
      (map ContextActions.addTodo texts
       ++ repeat (ContextActions.removeTodo 0) m) state in
  let before := ContextStore.items (ContextStore.todos state) in
  ContextStore.items (ContextStore.todos after) = skipn m (before ++ texts)
  /\ length (ContextStore.items (ContextStore.todos after))
     = (length before + length texts - m)%nat
  /\ ContextStore.counter after = ContextStore.counter state.
Proof.
  intros after before. subst after before.
  unfold ContextActions.call_all. rewrite fold_left_app.
  fold (ContextActions.call_all (map ContextActions.addTodo texts) state).
  rewrite call_all_adds.
  match goal with
  | |- context [fold_left ?f (repeat ?c m) ?s] =>
      change (fold_left f (repeat c m) s)
        with (ContextActions.call_all (repeat c m) s)
  end.
  rewrite call_all_remove_first. simpl.
  rewrite length_skipn, length_app. repeat split.
Qed.

Section Splice.

Context {A : Type}.
Variable l : list A.

Let len : Z := Z.of_nat (length l).

Lemma splice_in_range i :
  0 <= i < len -> JsArray.splice i 1 l = without_position (Z.to_nat i) l.
Proof.
  intros H. unfold JsArray.splice, without_position. fold len.
  destruct (Z.ltb_spec i 0) as [Hneg|_]; [lia|].
  rewrite (Z.min_l i len), (Z.max_l 1 0), (Z.min_l 1 (len - i)) by lia.
  now replace (Z.to_nat (i + 1)) with (S (Z.to_nat i)) by lia.
Qed.

Lemma splice_beyond i : len <= i -> JsArray.splice i 1 l = l.
Proof.
  intros H. unfold JsArray.splice. fold len.
  destruct (Z.ltb_spec i 0) as [Hneg|_]; [subst len; lia|].
  rewrite (Z.min_r i len), (Z.max_l 1 0), (Z.min_r 1 (len - len)) by lia.
  replace (len + (len - len)) with len by lia.
  apply firstn_skipn.
Qed.

Lemma splice_from_end i :
  - len <= i < 0 ->
  JsArray.splice i 1 l = without_position (Z.to_nat (len + i)) l.
Proof.
  intros H. unfold JsArray.splice, without_position. fold len.
  destruct (Z.ltb_spec i 0) as [_|Hpos]; [|lia].
  rewrite (Z.max_l (len + i) 0), (Z.max_l 1 0),
    (Z.min_l 1 (len - (len + i))) by lia.
  now replace (Z.to_nat (len + i + 1)) with (S (Z.to_nat (len + i))) by lia.
Qed.

Lemma splice_before_start i :
  i < - len -> JsArray.splice i 1 l = without_position 0 l.
Proof.
  intros H. unfold JsArray.splice, without_position. fold len.
  destruct (Z.ltb_spec i 0) as [_|Hpos]; [|subst len; lia].
  rewrite (Z.max_r (len + i) 0), (Z.max_l 1 0) by lia.
  rewrite Z.sub_0_r. simpl.
  destruct l as [|x r]; [reflexivity|].
  rewrite (Z.min_l 1 len) by (subst len; simpl length; lia).
  reflexivity.
Qed.

End Splice.

(** X13.  The [removeTodo] of the Redux Toolkit guide, which splices, does
    what the [REMOVE_TODO] of the Context API guide, which filters, does for
    every index that is not negative.  For a negative index the filtering
    store leaves the list alone, whereas the splicing one counts from the
    end: it removes the item [-i] places before the end, or the first item
    when the list is shorter than that. *)
Theorem splice_against_filter (state : ContextStore.State) (i : Z) :
  let l := ContextStore.items (ContextStore.todos state) in
  let filtered :=
    ContextStore.items
      (ContextStore.todos
         (ContextStore.reducer state (ContextStore.REMOVE_TODO i))) in
  let spliced :=
    ReduxGuide.todos
      (ReduxGuide.reducer {| ReduxGuide.todos := l |}
         (ReduxGuide.removeTodo i)) in
  let len := Z.of_nat (length l) in
  (0 <= i -> spliced = filtered)
  /\ (i < 0 -> filtered = l)
  /\ (- len <= i < 0 -> spliced = without_position (Z.to_nat (len + i)) l)
  /\ (i < - len -> spliced = without_position 0 l).
Proof.
  intros l filtered spliced len. subst filtered spliced len.
  rewrite remove_position_items. fold l. simpl ReduxGuide.todos.
  split; [|split; [|split]]; intros H.
  - destruct (Z.leb_spec 0 i); [simpl | lia].
    destruct (Z.ltb_spec i (Z.of_nat (length l))).
    + apply splice_in_range. lia.
    + apply splice_beyond. lia.
  - destruct (Z.leb_spec 0 i); [lia | reflexivity].
  - now apply splice_from_end.
  - now apply splice_before_start.
Qed.

Lemma splice_against_filter_witness :
  - Z.of_nat (length [ lit "a"; lit "b"; lit "c" ]) <= -1 < 0
  /\ ReduxGuide.todos
       (ReduxGuide.reducer
          {| ReduxGuide.todos := [ lit "a"; lit "b"; lit "c" ] |}
          (ReduxGuide.removeTodo (-1)))
     = without_position
         (Z.to_nat (Z.of_nat (length [ lit "a"; lit "b"; lit "c" ]) + -1))
         [ lit "a"; lit "b"; lit "c" ].
Proof.
  assert (H : - Z.of_nat (length [ lit "a"; lit "b"; lit "c" ]) <= -1 < 0)
    by (simpl; lia).
  split; [exact H|].
  exact (proj1 (proj2 (proj2
           (splice_against_filter
              {| ContextStore.counter := {| ContextStore.value := 0 |};
                 ContextStore.todos :=
                   {| ContextStore.items := [ lit "a"; lit "b"; lit "c" ] |} |}
              (-1)))) H).
Defined.

(** X14.  Whatever the user does on the guide's screen from its mount, every
    item of the list is non-empty and has no white space at either end. *)
Theorem guide_items_trimmed (events : list GuideScreen.Event) :
  Forall (fun item => item <> [] /\ trimmed item = true)
    (ContextStore.items
       (ContextStore.todos
          (GuideScreen.store
             (GuideScreen.handle_all events GuideScreen.mounted)))).
Proof.
  assert (G : forall scr,
             Forall (fun item => item <> [] /\ trimmed item = true)
               (ContextStore.items
                  (ContextStore.todos (GuideScreen.store scr))) ->
             Forall (fun item => item <> [] /\ trimmed item = true)
               (ContextStore.items
                  (ContextStore.todos
                     (GuideScreen.store (GuideScreen.handle_all events scr))))).
  { induction events as [|ev events IH]; intros scr H; [exact H|].
    simpl. apply IH. destruct ev; try exact H.
    - unfold GuideScreen.handle, GuideScreen.handleAddTodo.
      rewrite truthy_trim.
      destruct (blank (GuideScreen.newTodo scr)) eqn:B; [exact H|].
      simpl. apply Forall_app. split; [exact H|].
      constructor; [|constructor]. split.
      + intros E. apply trim_nil in E. congruence.
      + apply trim_trimmed.
    - simpl. rewrite Forall_forall in *. intros item Hin.
      apply H. eapply filter_from_In. exact Hin. }
  apply G. constructor.
Qed.

(* ================================================================= *)
(** ** The data set of the memory test *)

Section LargeDataset.

Lemma NoDup_map_injective {A B} (f : A -> B) (l : list A) :
  (forall x y, f x = f y -> x = y) -> NoDup l -> NoDup (map f l).
Proof.
  intros Hf. induction 1 as [|x l Hnotin Hnd IH]; simpl; constructor.
  - rewrite in_map_iff. intros [y [E Hin]]. apply Hf in E. congruence.
  - exact IH.
Qed.

End LargeDataset.

(** X15.  For a size below 2^32, [generateLargeDataset(size)] returns
    [size] items (none for a negative size) whose ids are 0, 1, ...,
    size - 1 in this order; the ids are pairwise distinct, and so are the
    texts, whatever the clock reads while the items are built.  From 2^32 on
    the call throws [RangeError]. *)
Theorem dataset_ids_and_texts_distinct (clock : nat -> Z) (size : Z) :
  (size < 2 ^ 32 ->
   exists data,
     MemoryTest.generateLargeDataset clock size = MemoryTest.Returned data
     /\ length data = Z.to_nat size
     /\ map MemoryTest.id data = map Z.of_nat (seq 0 (Z.to_nat size))
     /\ NoDup (map MemoryTest.id data)
     /\ NoDup (map MemoryTest.text data))
  /\ (2 ^ 32 <= size ->
      MemoryTest.generateLargeDataset clock size = MemoryTest.RangeError).
Proof.
  unfold MemoryTest.generateLargeDataset.
  split; intros H; destruct (Z.leb_spec (2 ^ 32) size); try lia;
    [|reflexivity].
  eexists. split; [reflexivity|].
  assert (Hids : map MemoryTest.id
                   (map (fun i => MemoryTest.item (clock i) (Z.of_nat i))
                        (seq 0 (Z.to_nat size)))
                 = map Z.of_nat (seq 0 (Z.to_nat size)))
    by (rewrite map_map; reflexivity).
  split; [|split; [|split]].
  - now rewrite length_map, length_seq.
  - exact Hids.
  - rewrite Hids.
    apply NoDup_map_injective; [apply Nat2Z.inj | apply seq_NoDup].
  - rewrite map_map. simpl.
    apply NoDup_map_injective; [|apply seq_NoDup].
    intros x y E. injection E as E. apply toString_inj in E.
    now apply Nat2Z.inj.
Qed.

Lemma dataset_ids_and_texts_distinct_witness :
  3 < 2 ^ 32
  /\ exists data,
       MemoryTest.generateLargeDataset (fun _ => same_ms) 3
       = MemoryTest.Returned data
       /\ length data = Z.to_nat 3
       /\ map MemoryTest.id data = map Z.of_nat (seq 0 (Z.to_nat 3)).
Proof.
  assert (H : 3 < 2 ^ 32) by lia.
  split; [exact H|].
  destruct (proj1 (dataset_ids_and_texts_distinct (fun _ => same_ms) 3) H)
    as [data [H1 [H2 [H3 _]]]].
  exists data. repeat split; assumption.
Defined.

(* ================================================================= *)
(** ** Removal by position and removal by id *)

(** C9, as stated, fails in its last clause: the stores other than the
    reducer of the Context API guide do not all remove by id.  The store of
    the Redux Toolkit guide holds plain strings and removes by position too:
    the same payload 0 removes "a" from ["a"; "b"] and "b" from
    ["b"; "a"]; and there an index that is out of range on the left is
    not a no-op, -1 removes the last item. *)
Lemma redux_guide_removes_by_position :
  ReduxGuide.reducer {| ReduxGuide.todos := [ lit "a"; lit "b" ] |}
    (ReduxGuide.removeTodo 0)
  = {| ReduxGuide.todos := [ lit "b" ] |}
  /\ ReduxGuide.reducer {| ReduxGuide.todos := [ lit "b"; lit "a" ] |}
       (ReduxGuide.removeTodo 0)
     = {| ReduxGuide.todos := [ lit "a" ] |}
  /\ ReduxGuide.reducer {| ReduxGuide.todos := [ lit "a"; lit "b" ] |}
       (ReduxGuide.removeTodo (-1))
     = {| ReduxGuide.todos := [ lit "a" ] |}.
Proof. repeat split. Qed.

(** C9 (amended).  In the reducer of the Context API guide, which keys
    removal on the position, [REMOVE_TODO] with payload [i] removes exactly
    the item standing at position [i] (the items before it and after it
    stay, in order, and the list is one shorter), and leaves the whole state
    unchanged when [i] is out of range.  The five stores of the app
    (context, zustand, mobx, recoil, redux) remove by id: a todo goes
    exactly when its id is the given one, wherever it stands.  The store of
    the Redux Toolkit guide is a further position-keyed variant: for
    [0 <= i] it removes exactly the item at position [i] as well, and
    nothing when [i] is the length of the list or more. *)
Theorem remove_by_position_or_by_id :
  (forall state i,
     let before := ContextStore.items (ContextStore.todos state) in
     let after :=
       ContextStore.items
         (ContextStore.todos
            (ContextStore.reducer state (ContextStore.REMOVE_TODO i))) in
     (0 <= i < Z.of_nat (length before) ->
      after = without_position (Z.to_nat i) before
      /\ (length after + 1 = length before)%nat)
     /\ (i < 0 \/ Z.of_nat (length before) <= i ->
         ContextStore.reducer state (ContextStore.REMOVE_TODO i) = state))
  /\ (forall now state id0 todo,
        In todo (Context.todos
                   (Context.reducer now state (Context.REMOVE_TODO id0)))
        <-> In todo (Context.todos state) /\ todo.(id) <> id0)
  /\ (forall state id0 todo,
        In todo (Zustand.todos (Zustand.removeTodo id0 state))
        <-> In todo (Zustand.todos state) /\ todo.(id) <> id0)
  /\ (forall this id0 todo,
        In todo (Mobx.todos (Mobx.removeTodo id0 this))
        <-> In todo (Mobx.todos this) /\ todo.(id) <> id0)
  /\ (forall root id0 todo,
        In todo (Recoil.todosState (Recoil.removeTodo id0 root))
        <-> In todo (Recoil.todosState root) /\ todo.(id) <> id0)
  /\ (forall now state id0 todo,
        In todo (Redux.items
                   (Redux.todos
                      (Redux.reducer now state (Redux.removeTodo id0))))
        <-> In todo (Redux.items (Redux.todos state)) /\ todo.(id) <> id0)
  /\ (forall state i,
        let before := ReduxGuide.todos state in
        let after :=
          ReduxGuide.todos
            (ReduxGuide.reducer state (ReduxGuide.removeTodo i)) in
        (0 <= i < Z.of_nat (length before) ->
         after = without_position (Z.to_nat i) before
         /\ (length after + 1 = length before)%nat)
        /\ (Z.of_nat (length before) <= i ->
            ReduxGuide.reducer state (ReduxGuide.removeTodo i) = state)).
Proof.
  split; [|split; [|split; [|split; [|split; [|split]]]]].
  - intros [c [l]] i before after. subst before after. simpl.
    unfold Js.filter_indexed. split.
    + intros H. rewrite filter_from_hit by (simpl; lia).
      rewrite Nat.sub_0_r. split; [reflexivity|].
      apply without_position_length. lia.
    + intros H. rewrite filter_from_miss by (simpl; lia). reflexivity.
  - intros. rewrite context_remove_todos. apply filter_keeps_In.
  - intros. rewrite zustand_remove_todos. apply filter_keeps_In.
  - intros. rewrite mobx_remove_todos. apply filter_keeps_In.
  - intros. rewrite recoil_remove_todos. apply filter_keeps_In.
  - intros. rewrite redux_remove_todos. apply filter_keeps_In.
  - intros [l] i before after. subst before after. simpl. split.
    + intros H. rewrite splice_in_range by lia.
      split; [reflexivity|]. apply without_position_length. lia.
    + intros H. now rewrite splice_beyond.
Qed.

Lemma remove_by_position_or_by_id_witness :
  0 <= 1 < Z.of_nat (length [ lit "a"; lit "b"; lit "c" ])
  /\ ContextStore.items
       (ContextStore.todos
          (ContextStore.reducer
             {| ContextStore.counter := {| ContextStore.value := 0 |};
                ContextStore.todos :=
                  {| ContextStore.items := [ lit "a"; lit "b"; lit "c" ] |} |}
             (ContextStore.REMOVE_TODO 1)))
     = without_position (Z.to_nat 1) [ lit "a"; lit "b"; lit "c" ].
Proof.
  assert (H : 0 <= 1 < Z.of_nat (length [ lit "a"; lit "b"; lit "c" ]))
    by (simpl; lia).
  split; [exact H|].
  exact (proj1 (proj1 (proj1 remove_by_position_or_by_id
                         {| ContextStore.counter := {| ContextStore.value := 0 |};
                            ContextStore.todos :=
                              {| ContextStore.items :=
                                   [ lit "a"; lit "b"; lit "c" ] |} |} 1) H)).
Defined.
